(** * Packet-mutation modules of the constraint-driven toolchain

    Every source file of the corpus is one test-case module with the four
    entry points [module_name], [setup], [tx_pre_dissection] and
    [tx_post_dissection].  The modules are embedded one Rocq [Module] per
    source file, statement by statement, in a small state-and-error monad
    over the memory the C code can reach. *)

From Stdlib Require Import ZArith Lia Sorted.
From Stdlib.Strings Require Import Byte.
From stdpp Require Import base option list strings.

Local Open Scope Z_scope.

(** ** The harness interface the modules are compiled against

    [ModulesInclude.hpp] is supplied by the fuzzing harness and is not part
    of the corpus.  What it declares is taken as a parameter where the
    modules never look at it, and modelled from the specification where
    they call it. *)

(** The fields of the harness structures that no module of the corpus
    names, and the decoder's table of element paths. *)
Class Harness := {
  fuzzing_rest : Type;          (* other members of [config->fuzzing] *)
  config_rest : Type;           (* other members of [*config] *)
  resolves : string -> bool     (* does a name denote a known element path *)
}.

(** [uint8_t] *)
Abbreviation uint8_t := byte.

(** Modelled from the spec: [wd_filter_t], the handle of a compiled filter
    ("Filter: name: string path into decoded element tree, compiled
    predicate").  [None] is the null handle a global holds before [setup]
    and the result of a compilation that failed (ConfigError). *)
Definition wd_filter_t : Type := option string.

(** Modelled from the spec: the dissector state behind [ctx->wd].
    [wd_registered] are the filters marked active for the current packet,
    [wd_dissection] is the decoded element tree of the current packet as the
    list of the element paths it contains, [None] when decode failed. *)
Record wd_t : Type := {
  wd_registered : list string;
  wd_dissection : option (list string)
}.

Section Structures.
Context `{Harness}.

Record fuzzing_t : Type := {
  global_timeout : bool;
  fuzzing_other : fuzzing_rest
}.

Record config_t : Type := {
  fuzzing : fuzzing_t;
  config_other : config_rest
}.

Record wd_modules_ctx_t : Type := {
  config : config_t;
  wd : wd_t
}.

(** Everything one module can read or write: its global [f1], the
    context behind [ctx], the bytes behind [pkt_buf], the harness's filter
    registry and the lines printed so far.  The object [pkt_buf] points
    into has its own extent ([length (pkt_mem w)]); the [pkt_length]
    argument of the hooks is a separate integer. *)
Record world : Type := {
  f1 : wd_filter_t;
  ctx : wd_modules_ctx_t;
  pkt_mem : list uint8_t;
  wd_filters : list string;
  wd_log : list string
}.

(** Computations of the modules.  [None] is undefined behaviour: a store
    outside the object behind [pkt_buf]. *)
Definition M (A : Type) : Type := world -> option (A * world).

Definition ret {A} (a : A) : M A := fun w => Some (a, w).

Definition bind {A B} (c : M A) (k : A -> M B) : M B :=
  fun w => match c w with
           | Some (a, w') => k a w'
           | None => None
           end.
End Structures.

Declare Scope cmd_scope.
Delimit Scope cmd_scope with cmd.
Bind Scope cmd_scope with M.

Notation "x <- c ;; k" := (bind c (fun x => k))
  (at level 100, c at next level, right associativity,
   format "x  <-  c  ;;  '//' k") : cmd_scope.
Notation "c ;; k" := (bind c (fun _ => k))
  (at level 100, right associativity,
   format "c  ;;  '//' k") : cmd_scope.

Section Primitives.
Context `{Harness}.

(** Reading and writing the module's global [f1]. *)
Definition get_f1 : M wd_filter_t := fun w => Some (f1 w, w).

Definition set_f1 (f : wd_filter_t) : M unit := fun w =>
  Some (tt, {| f1 := f; ctx := ctx w; pkt_mem := pkt_mem w;
               wd_filters := wd_filters w; wd_log := wd_log w |}).

(** [ctx->config->fuzzing.global_timeout = b] *)
Definition with_global_timeout (b : bool) (c : wd_modules_ctx_t)
  : wd_modules_ctx_t :=
  {| config := {| fuzzing := {| global_timeout := b;
                                fuzzing_other :=
                                  fuzzing_other (fuzzing (config c)) |};
                  config_other := config_other (config c) |};
     wd := wd c |}.

Definition set_global_timeout (b : bool) : M unit := fun w =>
  Some (tt, {| f1 := f1 w; ctx := with_global_timeout b (ctx w);
               pkt_mem := pkt_mem w;
               wd_filters := wd_filters w; wd_log := wd_log w |}).

(** Modelled from the spec: the registry "deduplicates by name". *)
Definition registry_add (name : string) (r : list string) : list string :=
  if bool_decide (name ∈ r) then r else r ++ [name].

(** Modelled from the spec: [wd_filter], "compile(name) -> Filter (fails
    with ConfigError if the name does not resolve to a known element
    path)".  A name that resolves is entered in the registry and its
    handle returned; otherwise the null handle is returned. *)
Definition wd_filter (name : string) : M wd_filter_t := fun w =>
  if resolves name
  then Some (Some name,
             {| f1 := f1 w; ctx := ctx w; pkt_mem := pkt_mem w;
                wd_filters := registry_add name (wd_filters w);
                wd_log := wd_log w |})
  else Some (None, w).

(** Modelled from the spec: "register(Filter) marks the filter active for
    the current packet's upcoming decode"; "registration is idempotent". *)
Definition register (f : wd_filter_t) (d : wd_t) : wd_t :=
  match f with
  | Some name => {| wd_registered := registry_add name (wd_registered d);
                    wd_dissection := wd_dissection d |}
  | None => d
  end.

(** [wd_register_filter(ctx->wd, f)] *)
Definition wd_register_filter (f : wd_filter_t) : M unit := fun w =>
  Some (tt, {| f1 := f1 w;
               ctx := {| config := config (ctx w);
                         wd := register f (wd (ctx w)) |};
               pkt_mem := pkt_mem w;
               wd_filters := wd_filters w; wd_log := wd_log w |}).

(** Modelled from the spec: "query(Filter) -> bool returns whether the
    decoded tree contains a node satisfying the filter"; a filter that
    was not registered before the decode reads false, and "on decode
    failure ... all filter queries [are] defined to return false". *)
Definition query (d : wd_t) (f : wd_filter_t) : bool :=
  match f, wd_dissection d with
  | Some name, Some tree =>
      bool_decide (name ∈ wd_registered d) && bool_decide (name ∈ tree)
  | _, _ => false
  end.

(** [wd_read_filter(ctx->wd, f)] *)
Definition wd_read_filter (f : wd_filter_t) : M bool := fun w =>
  Some (query (wd (ctx w)) f, w).

(** [wd_log_y(msg)] prints one line. *)
Definition wd_log_y (msg : string) : M unit := fun w =>
  Some (tt, {| f1 := f1 w; ctx := ctx w; pkt_mem := pkt_mem w;
               wd_filters := wd_filters w;
               wd_log := wd_log w ++ [msg] |}).

(** A store through a [uint8_t *]: defined exactly when the index falls
    inside the object pointed into; the object keeps its extent. *)
Definition store_byte (k : Z) (v : uint8_t) (b : list uint8_t)
  : option (list uint8_t) :=
  if (0 <=? k) && (k <? Z.of_nat (length b))
  then Some (<[Z.to_nat k := v]> b)
  else None.

(** [pkt_buf[k] = v;] *)
Definition pkt_store (k : Z) (v : uint8_t) : M unit := fun w =>
  match store_byte k v (pkt_mem w) with
  | Some b => Some (tt, {| f1 := f1 w; ctx := ctx w; pkt_mem := b;
                           wd_filters := wd_filters w;
                           wd_log := wd_log w |})
  | None => None
  end.
End Primitives.

Notation "'pkt_buf[' k ']' '=:' v" := (pkt_store k v)
  (at level 70, k at level 69, v at level 9, no associativity) : cmd_scope.

(** The entry points the harness looks up in a loaded module, together with
    the stores of its post-dissection hook. *)
Record wd_module `{Harness} : Type := {
  module_name : M string;
  setup : M Z;
  tx_pre_dissection : Z -> M Z;
  tx_post_dissection : Z -> M Z;
  patch_table : list (Z * uint8_t)
}.

(** ** The corpus, one module per source file

    Each hook is the source function statement by statement;
    [patch_table] lists the stores of [tx_post_dissection] in source order,
    every index in the form the source writes it. *)

(** archive_toolchain6_generate_OTA_testcase/inter-IE/output/06_payloads/mac_sch_f71_f247.cpp *)
Module mac_sch_f71_f247.
Section Source.
Context `{Harness}.

Definition module_name : M string := ret "Mediatek"%string.

Definition setup : M Z :=
  (set_global_timeout false ;;
   f <- wd_filter "nr-rrc.rrcSetup_element" ;;
   set_f1 f ;;
   ret 0)%cmd.

Definition tx_pre_dissection (pkt_length : Z) : M Z :=
  (f <- get_f1 ;;
   wd_register_filter f ;;
   ret 0)%cmd.

Definition tx_post_dissection (pkt_length : Z) : M Z :=
  (f <- get_f1 ;;
   hit <- wd_read_filter f ;;
   if hit : bool then
     wd_log_y "Malformed rrc setup sent!" ;;
     pkt_buf[123 - 48] =: x09 ;;
     pkt_buf[266 - 48] =: x6d ;;
     pkt_buf[267 - 48] =: x84 ;;
     ret 1
   else ret 0)%cmd.

Definition patch_table : list (Z * uint8_t) :=
  [ (123 - 48, x09);
    (266 - 48, x6d);
    (267 - 48, x84) ].

Definition hooks : wd_module :=
  Build_wd_module _ module_name setup tx_pre_dissection tx_post_dissection
    patch_table.
End Source.
End mac_sch_f71_f247.

(** camera-ready_experiment/compiled_our_approach/c2_compiled_presence_payloads/mac_sch_csi_IM_ResourcesForInterference_offset.cpp *)
Module mac_sch_csi_IM_ResourcesForInterference_offset.
Section Source.
Context `{Harness}.

Definition module_name : M string := ret "Mediatek"%string.

Definition setup : M Z :=
  (set_global_timeout false ;;
   f <- wd_filter "nr-rrc.rrcSetup_element" ;;
   set_f1 f ;;
   ret 0)%cmd.

Definition tx_pre_dissection (pkt_length : Z) : M Z :=
  (f <- get_f1 ;;
   wd_register_filter f ;;
   ret 0)%cmd.

Definition tx_post_dissection (pkt_length : Z) : M Z :=
  (f <- get_f1 ;;
   hit <- wd_read_filter f ;;
   if hit : bool then
     wd_log_y "Malformed rrc setup sent!" ;;
     pkt_buf[74 - 48] =: x8a ;;
     pkt_buf[679 - 48] =: x86 ;;
     pkt_buf[682 - 48] =: x40 ;;
     pkt_buf[683 - 48] =: x38 ;;
     pkt_buf[684 - 48] =: x41 ;;
     pkt_buf[685 - 48] =: x1c ;;
     pkt_buf[686 - 48] =: x63 ;;
     pkt_buf[687 - 48] =: xf0 ;;
     pkt_buf[688 - 48] =: x34 ;;
     pkt_buf[689 - 48] =: x40 ;;
     pkt_buf[690 - 48] =: x05 ;;
     pkt_buf[691 - 48] =: x81 ;;
     pkt_buf[692 - 48] =: x20 ;;
     pkt_buf[693 - 48] =: x20 ;;
     pkt_buf[694 - 48] =: x20 ;;
     pkt_buf[695 - 48] =: xa9 ;;
     pkt_buf[696 - 48] =: x80 ;;
     pkt_buf[697 - 48] =: xd0 ;;
     pkt_buf[698 - 48] =: x40 ;;
     pkt_buf[699 - 48] =: x88 ;;
     pkt_buf[700 - 48] =: x07 ;;
     pkt_buf[701 - 48] =: x10 ;;
     pkt_buf[702 - 48] =: x23 ;;
     pkt_buf[703 - 48] =: x8c ;;
     pkt_buf[704 - 48] =: x7e ;;
     pkt_buf[705 - 48] =: x06 ;;
     pkt_buf[706 - 48] =: x88 ;;
     pkt_buf[707 - 48] =: x00 ;;
     pkt_buf[708 - 48] =: xc0 ;;
     pkt_buf[709 - 48] =: x44 ;;
     pkt_buf[710 - 48] =: x04 ;;
     pkt_buf[711 - 48] =: x08 ;;
     pkt_buf[712 - 48] =: x15 ;;
     pkt_buf[713 - 48] =: x30 ;;
     pkt_buf[714 - 48] =: x1a ;;
     pkt_buf[715 - 48] =: x0c ;;
     pkt_buf[716 - 48] =: x19 ;;
     pkt_buf[717 - 48] =: x00 ;;
     pkt_buf[718 - 48] =: xe3 ;;
     pkt_buf[719 - 48] =: x04 ;;
     pkt_buf[720 - 48] =: x71 ;;
     pkt_buf[721 - 48] =: x8f ;;
     pkt_buf[722 - 48] =: xc0 ;;
     pkt_buf[723 - 48] =: xd1 ;;
     pkt_buf[724 - 48] =: x00 ;;
     pkt_buf[725 - 48] =: x1a ;;
     pkt_buf[726 - 48] =: x0c ;;
     pkt_buf[727 - 48] =: x80 ;;
     pkt_buf[728 - 48] =: x81 ;;
     pkt_buf[729 - 48] =: x82 ;;
     pkt_buf[730 - 48] =: xa6 ;;
     pkt_buf[731 - 48] =: x00 ;;
     pkt_buf[732 - 48] =: x3f ;;
     pkt_buf[733 - 48] =: x00 ;;
     pkt_buf[735 - 48] =: x00 ;;
     ret 1
   else ret 0)%cmd.

Definition patch_table : list (Z * uint8_t) :=
  [ (74 - 48, x8a);
    (679 - 48, x86);
    (682 - 48, x40);
    (683 - 48, x38);
    (684 - 48, x41);
    (685 - 48, x1c);
    (686 - 48, x63);
    (687 - 48, xf0);
    (688 - 48, x34);
    (689 - 48, x40);
    (690 - 48, x05);
    (691 - 48, x81);
    (692 - 48, x20);
    (693 - 48, x20);
    (694 - 48, x20);
    (695 - 48, xa9);
    (696 - 48, x80);
    (697 - 48, xd0);
    (698 - 48, x40);
    (699 - 48, x88);
    (700 - 48, x07);
    (701 - 48, x10);
    (702 - 48, x23);
    (703 - 48, x8c);
    (704 - 48, x7e);
    (705 - 48, x06);
    (706 - 48, x88);
    (707 - 48, x00);
    (708 - 48, xc0);
    (709 - 48, x44);
    (710 - 48, x04);
    (711 - 48, x08);
    (712 - 48, x15);
    (713 - 48, x30);
    (714 - 48, x1a);
    (715 - 48, x0c);
    (716 - 48, x19);
    (717 - 48, x00);
    (718 - 48, xe3);
    (719 - 48, x04);
    (720 - 48, x71);
    (721 - 48, x8f);
    (722 - 48, xc0);
    (723 - 48, xd1);
    (724 - 48, x00);
    (725 - 48, x1a);
    (726 - 48, x0c);
    (727 - 48, x80);
    (728 - 48, x81);
    (729 - 48, x82);
    (730 - 48, xa6);
    (731 - 48, x00);
    (732 - 48, x3f);
    (733 - 48, x00);
    (735 - 48, x00) ].

Definition hooks : wd_module :=
  Build_wd_module _ module_name setup tx_pre_dissection tx_post_dissection
    patch_table.
End Source.
End mac_sch_csi_IM_ResourcesForInterference_offset.

(** camera-ready_experiment/compiled_new_value_range/c1_compiled_value_range/mac_sch_865_mut2.cpp *)
Module mac_sch_865_mut2.
Section Source.
Context `{Harness}.

Definition module_name : M string := ret "Mediatek"%string.

Definition setup : M Z :=
  (set_global_timeout false ;;
   f <- wd_filter "nr-rrc.rrcSetup_element" ;;
   set_f1 f ;;
   ret 0)%cmd.

Definition tx_pre_dissection (pkt_length : Z) : M Z :=
  (f <- get_f1 ;;
   wd_register_filter f ;;
   ret 0)%cmd.

Definition tx_post_dissection (pkt_length : Z) : M Z :=
  (f <- get_f1 ;;
   hit <- wd_read_filter f ;;
   if hit : bool then
     wd_log_y "Malformed rrc setup sent!" ;;
     pkt_buf[74 - 48] =: x9a ;;
     pkt_buf[701 - 48] =: x07 ;;
     pkt_buf[702 - 48] =: x88 ;;
     pkt_buf[703 - 48] =: x11 ;;
     pkt_buf[704 - 48] =: xc6 ;;
     pkt_buf[705 - 48] =: x3f ;;
     pkt_buf[706 - 48] =: x03 ;;
     pkt_buf[707 - 48] =: x44 ;;
     pkt_buf[708 - 48] =: x00 ;;
     pkt_buf[709 - 48] =: x60 ;;
     pkt_buf[710 - 48] =: x22 ;;
     pkt_buf[711 - 48] =: x02 ;;
     pkt_buf[712 - 48] =: x04 ;;
     pkt_buf[713 - 48] =: x0a ;;
     pkt_buf[714 - 48] =: x98 ;;
     pkt_buf[715 - 48] =: x2d ;;
     pkt_buf[716 - 48] =: x06 ;;
     pkt_buf[717 - 48] =: x0c ;;
     pkt_buf[718 - 48] =: x69 ;;
     pkt_buf[719 - 48] =: x00 ;;
     pkt_buf[720 - 48] =: xe3 ;;
     pkt_buf[721 - 48] =: x04 ;;
     pkt_buf[722 - 48] =: x71 ;;
     pkt_buf[723 - 48] =: x8f ;;
     pkt_buf[724 - 48] =: xc0 ;;
     pkt_buf[725 - 48] =: xd1 ;;
     pkt_buf[726 - 48] =: x00 ;;
     pkt_buf[727 - 48] =: x1a ;;
     pkt_buf[728 - 48] =: x0c ;;
     pkt_buf[729 - 48] =: x80 ;;
     pkt_buf[730 - 48] =: x81 ;;
     pkt_buf[731 - 48] =: x82 ;;
     pkt_buf[732 - 48] =: xa6 ;;
     pkt_buf[733 - 48] =: x00 ;;
     pkt_buf[734 - 48] =: x3f ;;
     pkt_buf[735 - 48] =: x00 ;;
     ret 1
   else ret 0)%cmd.

Definition patch_table : list (Z * uint8_t) :=
  [ (74 - 48, x9a);
    (701 - 48, x07);
    (702 - 48, x88);
    (703 - 48, x11);
    (704 - 48, xc6);
    (705 - 48, x3f);
    (706 - 48, x03);
    (707 - 48, x44);
    (708 - 48, x00);
    (709 - 48, x60);
    (710 - 48, x22);
    (711 - 48, x02);
    (712 - 48, x04);
    (713 - 48, x0a);
    (714 - 48, x98);
    (715 - 48, x2d);
    (716 - 48, x06);
    (717 - 48, x0c);
    (718 - 48, x69);
    (719 - 48, x00);
    (720 - 48, xe3);
    (721 - 48, x04);
    (722 - 48, x71);
    (723 - 48, x8f);
    (724 - 48, xc0);
    (725 - 48, xd1);
    (726 - 48, x00);
    (727 - 48, x1a);
    (728 - 48, x0c);
    (729 - 48, x80);
    (730 - 48, x81);
    (731 - 48, x82);
    (732 - 48, xa6);
    (733 - 48, x00);
    (734 - 48, x3f);
    (735 - 48, x00) ].

Definition hooks : wd_module :=
  Build_wd_module _ module_name setup tx_pre_dissection tx_post_dissection
    patch_table.
End Source.
End mac_sch_865_mut2.

(** camera-ready_experiment/new_c1_include_boudary_smart_sample/new_value_range/output/c1_compiled_value_range/mac_sch_787_mut3.cpp *)
Module mac_sch_787_mut3.
Section Source.
Context `{Harness}.

Definition module_name : M string := ret "Mediatek"%string.

Definition setup : M Z :=
  (set_global_timeout false ;;
   f <- wd_filter "nr-rrc.rrcSetup_element" ;;
   set_f1 f ;;
   ret 0)%cmd.

Definition tx_pre_dissection (pkt_length : Z) : M Z :=
  (f <- get_f1 ;;
   wd_register_filter f ;;
   ret 0)%cmd.

Definition tx_post_dissection (pkt_length : Z) : M Z :=
  (f <- get_f1 ;;
   hit <- wd_read_filter f ;;
   if hit : bool then
     wd_log_y "Malformed rrc setup sent!" ;;
     pkt_buf[657 - 48] =: xcf ;;
     pkt_buf[658 - 48] =: xf0 ;;
     ret 1
   else ret 0)%cmd.

Definition patch_table : list (Z * uint8_t) :=
  [ (657 - 48, xcf);
    (658 - 48, xf0) ].

Definition hooks : wd_module :=
  Build_wd_module _ module_name setup tx_pre_dissection tx_post_dissection
    patch_table.
End Source.
End mac_sch_787_mut3.

(** camera-ready_experiment/new_c1_include_boudary_smart_sample/new_value_range/output/c1_compiled_value_range/mac_sch_889_mut9.cpp *)
Module mac_sch_889_mut9.
Section Source.
Context `{Harness}.

Definition module_name : M string := ret "Mediatek"%string.

Definition setup : M Z :=
  (set_global_timeout false ;;
   f <- wd_filter "nr-rrc.rrcSetup_element" ;;
   set_f1 f ;;
   ret 0)%cmd.

Definition tx_pre_dissection (pkt_length : Z) : M Z :=
  (f <- get_f1 ;;
   wd_register_filter f ;;
   ret 0)%cmd.

Definition tx_post_dissection (pkt_length : Z) : M Z :=
  (f <- get_f1 ;;
   hit <- wd_read_filter f ;;
   if hit : bool then
     wd_log_y "Malformed rrc setup sent!" ;;
     pkt_buf[711 - 48] =: x12 ;;
     pkt_buf[712 - 48] =: x08 ;;
     pkt_buf[713 - 48] =: x10 ;;
     pkt_buf[714 - 48] =: x2a ;;
     pkt_buf[715 - 48] =: x60 ;;
     pkt_buf[716 - 48] =: xb4 ;;
     pkt_buf[717 - 48] =: x18 ;;
     pkt_buf[718 - 48] =: x31 ;;
     pkt_buf[719 - 48] =: xa4 ;;
     pkt_buf[720 - 48] =: x03 ;;
     pkt_buf[721 - 48] =: x8c ;;
     pkt_buf[722 - 48] =: x11 ;;
     pkt_buf[723 - 48] =: xc6 ;;
     pkt_buf[724 - 48] =: x3f ;;
     pkt_buf[725 - 48] =: x03 ;;
     pkt_buf[726 - 48] =: x44 ;;
     pkt_buf[728 - 48] =: x68 ;;
     pkt_buf[729 - 48] =: x32 ;;
     pkt_buf[730 - 48] =: x02 ;;
     pkt_buf[731 - 48] =: x06 ;;
     pkt_buf[732 - 48] =: x0a ;;
     pkt_buf[733 - 48] =: x98 ;;
     ret 1
   else ret 0)%cmd.

Definition patch_table : list (Z * uint8_t) :=
  [ (711 - 48, x12);
    (712 - 48, x08);
    (713 - 48, x10);
    (714 - 48, x2a);
    (715 - 48, x60);
    (716 - 48, xb4);
    (717 - 48, x18);
    (718 - 48, x31);
    (719 - 48, xa4);
    (720 - 48, x03);
    (721 - 48, x8c);
    (722 - 48, x11);
    (723 - 48, xc6);
    (724 - 48, x3f);
    (725 - 48, x03);
    (726 - 48, x44);
    (728 - 48, x68);
    (729 - 48, x32);
    (730 - 48, x02);
    (731 - 48, x06);
    (732 - 48, x0a);
    (733 - 48, x98) ].

Definition hooks : wd_module :=
  Build_wd_module _ module_name setup tx_pre_dissection tx_post_dissection
    patch_table.
End Source.
End mac_sch_889_mut9.

(** camera-ready_experiment/new_c1_include_boudary_smart_sample/new_value_range/output/c1_compiled_value_range/mac_sch_678_mut3.cpp *)
Module mac_sch_678_mut3.
Section Source.
Context `{Harness}.

Definition module_name : M string := ret "Mediatek"%string.

Definition setup : M Z :=
  (set_global_timeout false ;;
   f <- wd_filter "nr-rrc.rrcSetup_element" ;;
   set_f1 f ;;
   ret 0)%cmd.

Definition tx_pre_dissection (pkt_length : Z) : M Z :=
  (f <- get_f1 ;;
   wd_register_filter f ;;
   ret 0)%cmd.

Definition tx_post_dissection (pkt_length : Z) : M Z :=
  (f <- get_f1 ;;
   hit <- wd_read_filter f ;;
   if hit : bool then
     wd_log_y "Malformed rrc setup sent!" ;;
     pkt_buf[74 - 48] =: x9a ;;
     pkt_buf[568 - 48] =: x20 ;;
     pkt_buf[569 - 48] =: x80 ;;
     pkt_buf[570 - 48] =: xa0 ;;
     pkt_buf[571 - 48] =: x00 ;;
     pkt_buf[572 - 48] =: x72 ;;
     pkt_buf[573 - 48] =: xa0 ;;
     pkt_buf[574 - 48] =: xa0 ;;
     pkt_buf[575 - 48] =: x0c ;;
     pkt_buf[576 - 48] =: x45 ;;
     pkt_buf[577 - 48] =: x55 ;;
     pkt_buf[578 - 48] =: x50 ;;
     pkt_buf[579 - 48] =: x02 ;;
     pkt_buf[580 - 48] =: x70 ;;
     pkt_buf[581 - 48] =: x03 ;;
     pkt_buf[582 - 48] =: x04 ;;
     pkt_buf[583 - 48] =: xea ;;
     pkt_buf[584 - 48] =: x80 ;;
     pkt_buf[585 - 48] =: x0a ;;
     pkt_buf[586 - 48] =: x88 ;;
     pkt_buf[587 - 48] =: x40 ;;
     pkt_buf[588 - 48] =: x0a ;;
     pkt_buf[589 - 48] =: x00 ;;
     pkt_buf[591 - 48] =: xe0 ;;
     pkt_buf[592 - 48] =: x26 ;;
     pkt_buf[593 - 48] =: x09 ;;
     pkt_buf[594 - 48] =: xd5 ;;
     pkt_buf[595 - 48] =: x00 ;;
     pkt_buf[596 - 48] =: x07 ;;
     pkt_buf[597 - 48] =: x10 ;;
     pkt_buf[598 - 48] =: x80 ;;
     pkt_buf[599 - 48] =: x14 ;;
     pkt_buf[600 - 48] =: x14 ;;
     pkt_buf[601 - 48] =: x01 ;;
     pkt_buf[602 - 48] =: xc0 ;;
     pkt_buf[603 - 48] =: x8c ;;
     pkt_buf[604 - 48] =: x13 ;;
     pkt_buf[605 - 48] =: xaa ;;
     pkt_buf[606 - 48] =: x00 ;;
     pkt_buf[608 - 48] =: x21 ;;
     pkt_buf[609 - 48] =: x00 ;;
     pkt_buf[610 - 48] =: x28 ;;
     pkt_buf[611 - 48] =: x50 ;;
     pkt_buf[612 - 48] =: x00 ;;
     pkt_buf[613 - 48] =: x40 ;;
     pkt_buf[617 - 48] =: x08 ;;
     pkt_buf[618 - 48] =: x00 ;;
     pkt_buf[619 - 48] =: x20 ;;
     pkt_buf[620 - 48] =: x10 ;;
     pkt_buf[621 - 48] =: x00 ;;
     pkt_buf[622 - 48] =: x42 ;;
     pkt_buf[623 - 48] =: x70 ;;
     pkt_buf[624 - 48] =: x5d ;;
     pkt_buf[625 - 48] =: x00 ;;
     pkt_buf[626 - 48] =: x15 ;;
     pkt_buf[627 - 48] =: x28 ;;
     pkt_buf[628 - 48] =: x01 ;;
     pkt_buf[629 - 48] =: xc3 ;;
     pkt_buf[630 - 48] =: x74 ;;
     pkt_buf[631 - 48] =: x00 ;;
     pkt_buf[632 - 48] =: x1c ;;
     pkt_buf[633 - 48] =: xa0 ;;
     pkt_buf[634 - 48] =: xa7 ;;
     pkt_buf[635 - 48] =: x15 ;;
     pkt_buf[636 - 48] =: xd0 ;;
     pkt_buf[637 - 48] =: x00 ;;
     pkt_buf[638 - 48] =: x02 ;;
     pkt_buf[639 - 48] =: x85 ;;
     pkt_buf[640 - 48] =: x02 ;;
     pkt_buf[641 - 48] =: x00 ;;
     pkt_buf[643 - 48] =: x04 ;;
     pkt_buf[644 - 48] =: x04 ;;
     pkt_buf[646 - 48] =: x10 ;;
     pkt_buf[647 - 48] =: x00 ;;
     pkt_buf[650 - 48] =: x40 ;;
     pkt_buf[651 - 48] =: xa9 ;;
     pkt_buf[652 - 48] =: x00 ;;
     pkt_buf[653 - 48] =: xc0 ;;
     pkt_buf[654 - 48] =: x28 ;;
     pkt_buf[655 - 48] =: x00 ;;
     pkt_buf[656 - 48] =: x30 ;;
     pkt_buf[657 - 48] =: x5c ;;
     pkt_buf[658 - 48] =: x00 ;;
     pkt_buf[659 - 48] =: x30 ;;
     pkt_buf[660 - 48] =: xb1 ;;
     pkt_buf[661 - 48] =: x01 ;;
     pkt_buf[662 - 48] =: x40 ;;
     pkt_buf[663 - 48] =: x48 ;;
     pkt_buf[664 - 48] =: x01 ;;
     pkt_buf[665 - 48] =: x50 ;;
     pkt_buf[666 - 48] =: x64 ;;
     pkt_buf[667 - 48] =: x01 ;;
     pkt_buf[668 - 48] =: x50 ;;
     pkt_buf[669 - 48] =: xb9 ;;
     pkt_buf[670 - 48] =: x01 ;;
     pkt_buf[671 - 48] =: xc0 ;;
     pkt_buf[672 - 48] =: x68 ;;
     pkt_buf[673 - 48] =: x02 ;;
     pkt_buf[674 - 48] =: x70 ;;
     pkt_buf[675 - 48] =: x6c ;;
     pkt_buf[676 - 48] =: x02 ;;
     pkt_buf[677 - 48] =: x70 ;;
     pkt_buf[678 - 48] =: xa5 ;;
     pkt_buf[679 - 48] =: xa0 ;;
     pkt_buf[680 - 48] =: x40 ;;
     pkt_buf[681 - 48] =: x8b ;;
     pkt_buf[682 - 48] =: x20 ;;
     pkt_buf[683 - 48] =: x1c ;;
     pkt_buf[684 - 48] =: x20 ;;
     pkt_buf[685 - 48] =: x8e ;;
     pkt_buf[686 - 48] =: x31 ;;
     pkt_buf[687 - 48] =: xf8 ;;
     pkt_buf[688 - 48] =: x1a ;;
     pkt_buf[689 - 48] =: x20 ;;
     pkt_buf[690 - 48] =: x02 ;;
     pkt_buf[691 - 48] =: xc0 ;;
     pkt_buf[692 - 48] =: x90 ;;
     pkt_buf[693 - 48] =: x10 ;;
     pkt_buf[694 - 48] =: x10 ;;
     pkt_buf[695 - 48] =: x54 ;;
     pkt_buf[696 - 48] =: xc1 ;;
     pkt_buf[697 - 48] =: x68 ;;
     pkt_buf[698 - 48] =: x20 ;;
     pkt_buf[699 - 48] =: x43 ;;
     pkt_buf[700 - 48] =: x08 ;;
     pkt_buf[701 - 48] =: x07 ;;
     pkt_buf[702 - 48] =: x10 ;;
     pkt_buf[703 - 48] =: x23 ;;
     pkt_buf[704 - 48] =: x8c ;;
     pkt_buf[705 - 48] =: x7e ;;
     pkt_buf[706 - 48] =: x06 ;;
     pkt_buf[707 - 48] =: x88 ;;
     pkt_buf[708 - 48] =: x00 ;;
     pkt_buf[709 - 48] =: xc0 ;;
     pkt_buf[710 - 48] =: x44 ;;
     pkt_buf[711 - 48] =: x04 ;;
     pkt_buf[712 - 48] =: x08 ;;
     pkt_buf[713 - 48] =: x15 ;;
     pkt_buf[714 - 48] =: x30 ;;
     pkt_buf[715 - 48] =: x5a ;;
     pkt_buf[716 - 48] =: x0c ;;
     pkt_buf[717 - 48] =: x18 ;;
     pkt_buf[718 - 48] =: xd2 ;;
     pkt_buf[719 - 48] =: x01 ;;
     pkt_buf[720 - 48] =: xc6 ;;
     pkt_buf[721 - 48] =: x08 ;;
     pkt_buf[722 - 48] =: xe3 ;;
     pkt_buf[723 - 48] =: x1f ;;
     pkt_buf[724 - 48] =: x81 ;;
     pkt_buf[725 - 48] =: xa2 ;;
     pkt_buf[726 - 48] =: x00 ;;
     pkt_buf[727 - 48] =: x34 ;;
     pkt_buf[728 - 48] =: x19 ;;
     pkt_buf[729 - 48] =: x01 ;;
     pkt_buf[730 - 48] =: x03 ;;
     pkt_buf[731 - 48] =: x05 ;;
     pkt_buf[732 - 48] =: x4c ;;
     pkt_buf[733 - 48] =: x00 ;;
     pkt_buf[734 - 48] =: x3f ;;
     pkt_buf[735 - 48] =: x00 ;;
     ret 1
   else ret 0)%cmd.

Definition patch_table : list (Z * uint8_t) :=
  [ (74 - 48, x9a);
    (568 - 48, x20);
    (569 - 48, x80);
    (570 - 48, xa0);
    (571 - 48, x00);
    (572 - 48, x72);
    (573 - 48, xa0);
    (574 - 48, xa0);
    (575 - 48, x0c);
    (576 - 48, x45);
    (577 - 48, x55);
    (578 - 48, x50);
    (579 - 48, x02);
    (580 - 48, x70);
    (581 - 48, x03);
    (582 - 48, x04);
    (583 - 48, xea);
    (584 - 48, x80);
    (585 - 48, x0a);
    (586 - 48, x88);
    (587 - 48, x40);
    (588 - 48, x0a);
    (589 - 48, x00);
    (591 - 48, xe0);
    (592 - 48, x26);
    (593 - 48, x09);
    (594 - 48, xd5);
    (595 - 48, x00);
    (596 - 48, x07);
    (597 - 48, x10);
    (598 - 48, x80);
    (599 - 48, x14);
    (600 - 48, x14);
    (601 - 48, x01);
    (602 - 48, xc0);
    (603 - 48, x8c);
    (604 - 48, x13);
    (605 - 48, xaa);
    (606 - 48, x00);
    (608 - 48, x21);
    (609 - 48, x00);
    (610 - 48, x28);
    (611 - 48, x50);
    (612 - 48, x00);
    (613 - 48, x40);
    (617 - 48, x08);
    (618 - 48, x00);
    (619 - 48, x20);
    (620 - 48, x10);
    (621 - 48, x00);
    (622 - 48, x42);
    (623 - 48, x70);
    (624 - 48, x5d);
    (625 - 48, x00);
    (626 - 48, x15);
    (627 - 48, x28);
    (628 - 48, x01);
    (629 - 48, xc3);
    (630 - 48, x74);
    (631 - 48, x00);
    (632 - 48, x1c);
    (633 - 48, xa0);
    (634 - 48, xa7);
    (635 - 48, x15);
    (636 - 48, xd0);
    (637 - 48, x00);
    (638 - 48, x02);
    (639 - 48, x85);
    (640 - 48, x02);
    (641 - 48, x00);
    (643 - 48, x04);
    (644 - 48, x04);
    (646 - 48, x10);
    (647 - 48, x00);
    (650 - 48, x40);
    (651 - 48, xa9);
    (652 - 48, x00);
    (653 - 48, xc0);
    (654 - 48, x28);
    (655 - 48, x00);
    (656 - 48, x30);
    (657 - 48, x5c);
    (658 - 48, x00);
    (659 - 48, x30);
    (660 - 48, xb1);
    (661 - 48, x01);
    (662 - 48, x40);
    (663 - 48, x48);
    (664 - 48, x01);
    (665 - 48, x50);
    (666 - 48, x64);
    (667 - 48, x01);
    (668 - 48, x50);
    (669 - 48, xb9);
    (670 - 48, x01);
    (671 - 48, xc0);
    (672 - 48, x68);
    (673 - 48, x02);
    (674 - 48, x70);
    (675 - 48, x6c);
    (676 - 48, x02);
    (677 - 48, x70);
    (678 - 48, xa5);
    (679 - 48, xa0);
    (680 - 48, x40);
    (681 - 48, x8b);
    (682 - 48, x20);
    (683 - 48, x1c);
    (684 - 48, x20);
    (685 - 48, x8e);
    (686 - 48, x31);
    (687 - 48, xf8);
    (688 - 48, x1a);
    (689 - 48, x20);
    (690 - 48, x02);
    (691 - 48, xc0);
    (692 - 48, x90);
    (693 - 48, x10);
    (694 - 48, x10);
    (695 - 48, x54);
    (696 - 48, xc1);
    (697 - 48, x68);
    (698 - 48, x20);
    (699 - 48, x43);
    (700 - 48, x08);
    (701 - 48, x07);
    (702 - 48, x10);
    (703 - 48, x23);
    (704 - 48, x8c);
    (705 - 48, x7e);
    (706 - 48, x06);
    (707 - 48, x88);
    (708 - 48, x00);
    (709 - 48, xc0);
    (710 - 48, x44);
    (711 - 48, x04);
    (712 - 48, x08);
    (713 - 48, x15);
    (714 - 48, x30);
    (715 - 48, x5a);
    (716 - 48, x0c);
    (717 - 48, x18);
    (718 - 48, xd2);
    (719 - 48, x01);
    (720 - 48, xc6);
    (721 - 48, x08);
    (722 - 48, xe3);
    (723 - 48, x1f);
    (724 - 48, x81);
    (725 - 48, xa2);
    (726 - 48, x00);
    (727 - 48, x34);
    (728 - 48, x19);
    (729 - 48, x01);
    (730 - 48, x03);
    (731 - 48, x05);
    (732 - 48, x4c);
    (733 - 48, x00);
    (734 - 48, x3f);
    (735 - 48, x00) ].

Definition hooks : wd_module :=
  Build_wd_module _ module_name setup tx_pre_dissection tx_post_dissection
    patch_table.
End Source.
End mac_sch_678_mut3.

(** camera-ready_experiment/new_c1_include_boudary_smart_sample/new_value_range/output/06_payloads/mac_sch_865_mut4.cpp *)
Module mac_sch_865_mut4.
Section Source.
Context `{Harness}.

Definition module_name : M string := ret "Mediatek"%string.

Definition setup : M Z :=
  (set_global_timeout false ;;
   f <- wd_filter "nr-rrc.rrcSetup_element" ;;
   set_f1 f ;;
   ret 0)%cmd.

Definition tx_pre_dissection (pkt_length : Z) : M Z :=
  (f <- get_f1 ;;
   wd_register_filter f ;;
   ret 0)%cmd.

Definition tx_post_dissection (pkt_length : Z) : M Z :=
  (f <- get_f1 ;;
   hit <- wd_read_filter f ;;
   if hit : bool then
     wd_log_y "Malformed rrc setup sent!" ;;
     pkt_buf[74 - 48] =: x9a ;;
     pkt_buf[701 - 48] =: x0d ;;
     pkt_buf[702 - 48] =: xc4 ;;
     pkt_buf[703 - 48] =: x08 ;;
     pkt_buf[704 - 48] =: xe3 ;;
     pkt_buf[705 - 48] =: x1f ;;
     pkt_buf[706 - 48] =: x81 ;;
     pkt_buf[707 - 48] =: xa2 ;;
     pkt_buf[708 - 48] =: x00 ;;
     pkt_buf[709 - 48] =: x30 ;;
     pkt_buf[710 - 48] =: x11 ;;
     pkt_buf[711 - 48] =: x01 ;;
     pkt_buf[712 - 48] =: x02 ;;
     pkt_buf[713 - 48] =: x05 ;;
     pkt_buf[714 - 48] =: x4c ;;
     pkt_buf[715 - 48] =: x16 ;;
     pkt_buf[716 - 48] =: x83 ;;
     pkt_buf[717 - 48] =: x06 ;;
     pkt_buf[718 - 48] =: x34 ;;
     pkt_buf[719 - 48] =: x80 ;;
     pkt_buf[720 - 48] =: x71 ;;
     pkt_buf[721 - 48] =: x82 ;;
     pkt_buf[722 - 48] =: x38 ;;
     pkt_buf[723 - 48] =: xc7 ;;
     pkt_buf[724 - 48] =: xe0 ;;
     pkt_buf[725 - 48] =: x68 ;;
     pkt_buf[726 - 48] =: x80 ;;
     pkt_buf[727 - 48] =: x0d ;;
     pkt_buf[728 - 48] =: x06 ;;
     pkt_buf[729 - 48] =: x40 ;;
     pkt_buf[730 - 48] =: x40 ;;
     pkt_buf[731 - 48] =: xc1 ;;
     pkt_buf[732 - 48] =: x53 ;;
     pkt_buf[733 - 48] =: x00 ;;
     pkt_buf[734 - 48] =: x3f ;;
     pkt_buf[735 - 48] =: x00 ;;
     ret 1
   else ret 0)%cmd.

Definition patch_table : list (Z * uint8_t) :=
  [ (74 - 48, x9a);
    (701 - 48, x0d);
    (702 - 48, xc4);
    (703 - 48, x08);
    (704 - 48, xe3);
    (705 - 48, x1f);
    (706 - 48, x81);
    (707 - 48, xa2);
    (708 - 48, x00);
    (709 - 48, x30);
    (710 - 48, x11);
    (711 - 48, x01);
    (712 - 48, x02);
    (713 - 48, x05);
    (714 - 48, x4c);
    (715 - 48, x16);
    (716 - 48, x83);
    (717 - 48, x06);
    (718 - 48, x34);
    (719 - 48, x80);
    (720 - 48, x71);
    (721 - 48, x82);
    (722 - 48, x38);
    (723 - 48, xc7);
    (724 - 48, xe0);
    (725 - 48, x68);
    (726 - 48, x80);
    (727 - 48, x0d);
    (728 - 48, x06);
    (729 - 48, x40);
    (730 - 48, x40);
    (731 - 48, xc1);
    (732 - 48, x53);
    (733 - 48, x00);
    (734 - 48, x3f);
    (735 - 48, x00) ].

Definition hooks : wd_module :=
  Build_wd_module _ module_name setup tx_pre_dissection tx_post_dissection
    patch_table.
End Source.
End mac_sch_865_mut4.

(** camera-ready_experiment/new_c1_include_boudary_smart_sample/new_value_range/output/06_payloads/mac_sch_904_mut8.cpp *)
Module mac_sch_904_mut8.
Section Source.
Context `{Harness}.

Definition module_name : M string := ret "Mediatek"%string.

Definition setup : M Z :=
  (set_global_timeout false ;;
   f <- wd_filter "nr-rrc.rrcSetup_element" ;;
   set_f1 f ;;
   ret 0)%cmd.

Definition tx_pre_dissection (pkt_length : Z) : M Z :=
  (f <- get_f1 ;;
   wd_register_filter f ;;
   ret 0)%cmd.

Definition tx_post_dissection (pkt_length : Z) : M Z :=
  (f <- get_f1 ;;
   hit <- wd_read_filter f ;;
   if hit : bool then
     wd_log_y "Malformed rrc setup sent!" ;;
     pkt_buf[719 - 48] =: x47 ;;
     pkt_buf[720 - 48] =: x0e ;;
     pkt_buf[721 - 48] =: x30 ;;
     pkt_buf[722 - 48] =: x47 ;;
     pkt_buf[723 - 48] =: x18 ;;
     pkt_buf[724 - 48] =: xfc ;;
     pkt_buf[725 - 48] =: x0d ;;
     pkt_buf[726 - 48] =: x10 ;;
     pkt_buf[727 - 48] =: x01 ;;
     pkt_buf[728 - 48] =: xa0 ;;
     pkt_buf[729 - 48] =: xc8 ;;
     pkt_buf[730 - 48] =: x08 ;;
     pkt_buf[731 - 48] =: x18 ;;
     pkt_buf[732 - 48] =: x2a ;;
     pkt_buf[733 - 48] =: x60 ;;
     ret 1
   else ret 0)%cmd.

Definition patch_table : list (Z * uint8_t) :=
  [ (719 - 48, x47);
    (720 - 48, x0e);
    (721 - 48, x30);
    (722 - 48, x47);
    (723 - 48, x18);
    (724 - 48, xfc);
    (725 - 48, x0d);
    (726 - 48, x10);
    (727 - 48, x01);
    (728 - 48, xa0);
    (729 - 48, xc8);
    (730 - 48, x08);
    (731 - 48, x18);
    (732 - 48, x2a);
    (733 - 48, x60) ].

Definition hooks : wd_module :=
  Build_wd_module _ module_name setup tx_pre_dissection tx_post_dissection
    patch_table.
End Source.
End mac_sch_904_mut8.

(** camera-ready_experiment/new_c1_include_boudary_smart_sample/new_value_range/output/06_payloads/mac_sch_767_mut11.cpp *)
Module mac_sch_767_mut11.
Section Source.
Context `{Harness}.

Definition module_name : M string := ret "Mediatek"%string.

Definition setup : M Z :=
  (set_global_timeout false ;;
   f <- wd_filter "nr-rrc.rrcSetup_element" ;;
   set_f1 f ;;
   ret 0)%cmd.

Definition tx_pre_dissection (pkt_length : Z) : M Z :=
  (f <- get_f1 ;;
   wd_register_filter f ;;
   ret 0)%cmd.

Definition tx_post_dissection (pkt_length : Z) : M Z :=
  (f <- get_f1 ;;
   hit <- wd_read_filter f ;;
   if hit : bool then
     wd_log_y "Malformed rrc setup sent!" ;;
     pkt_buf[639 - 48] =: x0b ;;
     pkt_buf[640 - 48] =: x0a ;;
     pkt_buf[641 - 48] =: x04 ;;
     pkt_buf[644 - 48] =: x08 ;;
     pkt_buf[645 - 48] =: x08 ;;
     pkt_buf[646 - 48] =: x20 ;;
     pkt_buf[647 - 48] =: x20 ;;
     pkt_buf[650 - 48] =: x00 ;;
     pkt_buf[651 - 48] =: x81 ;;
     pkt_buf[652 - 48] =: x52 ;;
     pkt_buf[653 - 48] =: x01 ;;
     pkt_buf[654 - 48] =: x80 ;;
     pkt_buf[655 - 48] =: x50 ;;
     pkt_buf[657 - 48] =: x60 ;;
     pkt_buf[658 - 48] =: xb8 ;;
     pkt_buf[660 - 48] =: x61 ;;
     pkt_buf[661 - 48] =: x62 ;;
     pkt_buf[662 - 48] =: x02 ;;
     pkt_buf[663 - 48] =: x80 ;;
     pkt_buf[664 - 48] =: x90 ;;
     pkt_buf[665 - 48] =: x02 ;;
     pkt_buf[666 - 48] =: xa0 ;;
     pkt_buf[667 - 48] =: xc8 ;;
     pkt_buf[668 - 48] =: x02 ;;
     pkt_buf[669 - 48] =: xa1 ;;
     pkt_buf[670 - 48] =: x72 ;;
     pkt_buf[671 - 48] =: x03 ;;
     pkt_buf[672 - 48] =: x80 ;;
     pkt_buf[673 - 48] =: xd0 ;;
     pkt_buf[674 - 48] =: x04 ;;
     pkt_buf[675 - 48] =: xe0 ;;
     pkt_buf[676 - 48] =: xd8 ;;
     pkt_buf[677 - 48] =: x04 ;;
     pkt_buf[678 - 48] =: xe1 ;;
     pkt_buf[679 - 48] =: x4b ;;
     pkt_buf[680 - 48] =: x40 ;;
     pkt_buf[681 - 48] =: x81 ;;
     pkt_buf[682 - 48] =: x16 ;;
     pkt_buf[683 - 48] =: x40 ;;
     pkt_buf[684 - 48] =: x38 ;;
     pkt_buf[685 - 48] =: x41 ;;
     pkt_buf[686 - 48] =: x1c ;;
     pkt_buf[687 - 48] =: x63 ;;
     pkt_buf[688 - 48] =: xf0 ;;
     pkt_buf[689 - 48] =: x34 ;;
     pkt_buf[690 - 48] =: x40 ;;
     pkt_buf[691 - 48] =: x05 ;;
     pkt_buf[692 - 48] =: x81 ;;
     pkt_buf[693 - 48] =: x20 ;;
     pkt_buf[694 - 48] =: x20 ;;
     pkt_buf[695 - 48] =: x20 ;;
     pkt_buf[696 - 48] =: xa9 ;;
     pkt_buf[697 - 48] =: x82 ;;
     pkt_buf[698 - 48] =: xd0 ;;
     pkt_buf[699 - 48] =: x40 ;;
     pkt_buf[700 - 48] =: x86 ;;
     pkt_buf[701 - 48] =: x10 ;;
     pkt_buf[702 - 48] =: x0e ;;
     pkt_buf[703 - 48] =: x20 ;;
     pkt_buf[704 - 48] =: x47 ;;
     pkt_buf[705 - 48] =: x18 ;;
     pkt_buf[706 - 48] =: xfc ;;
     pkt_buf[707 - 48] =: x0d ;;
     pkt_buf[708 - 48] =: x10 ;;
     pkt_buf[709 - 48] =: x01 ;;
     pkt_buf[710 - 48] =: x80 ;;
     pkt_buf[711 - 48] =: x88 ;;
     pkt_buf[712 - 48] =: x08 ;;
     pkt_buf[713 - 48] =: x10 ;;
     pkt_buf[714 - 48] =: x2a ;;
     pkt_buf[715 - 48] =: x60 ;;
     pkt_buf[716 - 48] =: xb4 ;;
     pkt_buf[717 - 48] =: x18 ;;
     pkt_buf[718 - 48] =: x31 ;;
     pkt_buf[719 - 48] =: xa4 ;;
     pkt_buf[720 - 48] =: x03 ;;
     pkt_buf[721 - 48] =: x8c ;;
     pkt_buf[722 - 48] =: x11 ;;
     pkt_buf[723 - 48] =: xc6 ;;
     pkt_buf[724 - 48] =: x3f ;;
     pkt_buf[725 - 48] =: x03 ;;
     pkt_buf[726 - 48] =: x44 ;;
     pkt_buf[728 - 48] =: x68 ;;
     pkt_buf[729 - 48] =: x32 ;;
     pkt_buf[730 - 48] =: x02 ;;
     pkt_buf[731 - 48] =: x06 ;;
     pkt_buf[732 - 48] =: x0a ;;
     pkt_buf[733 - 48] =: x98 ;;
     ret 1
   else ret 0)%cmd.

Definition patch_table : list (Z * uint8_t) :=
  [ (639 - 48, x0b);
    (640 - 48, x0a);
    (641 - 48, x04);
    (644 - 48, x08);
    (645 - 48, x08);
    (646 - 48, x20);
    (647 - 48, x20);
    (650 - 48, x00);
    (651 - 48, x81);
    (652 - 48, x52);
    (653 - 48, x01);
    (654 - 48, x80);
    (655 - 48, x50);
    (657 - 48, x60);
    (658 - 48, xb8);
    (660 - 48, x61);
    (661 - 48, x62);
    (662 - 48, x02);
    (663 - 48, x80);
    (664 - 48, x90);
    (665 - 48, x02);
    (666 - 48, xa0);
    (667 - 48, xc8);
    (668 - 48, x02);
    (669 - 48, xa1);
    (670 - 48, x72);
    (671 - 48, x03);
    (672 - 48, x80);
    (673 - 48, xd0);
    (674 - 48, x04);
    (675 - 48, xe0);
    (676 - 48, xd8);
    (677 - 48, x04);
    (678 - 48, xe1);
    (679 - 48, x4b);
    (680 - 48, x40);
    (681 - 48, x81);
    (682 - 48, x16);
    (683 - 48, x40);
    (684 - 48, x38);
    (685 - 48, x41);
    (686 - 48, x1c);
    (687 - 48, x63);
    (688 - 48, xf0);
    (689 - 48, x34);
    (690 - 48, x40);
    (691 - 48, x05);
    (692 - 48, x81);
    (693 - 48, x20);
    (694 - 48, x20);
    (695 - 48, x20);
    (696 - 48, xa9);
    (697 - 48, x82);
    (698 - 48, xd0);
    (699 - 48, x40);
    (700 - 48, x86);
    (701 - 48, x10);
    (702 - 48, x0e);
    (703 - 48, x20);
    (704 - 48, x47);
    (705 - 48, x18);
    (706 - 48, xfc);
    (707 - 48, x0d);
    (708 - 48, x10);
    (709 - 48, x01);
    (710 - 48, x80);
    (711 - 48, x88);
    (712 - 48, x08);
    (713 - 48, x10);
    (714 - 48, x2a);
    (715 - 48, x60);
    (716 - 48, xb4);
    (717 - 48, x18);
    (718 - 48, x31);
    (719 - 48, xa4);
    (720 - 48, x03);
    (721 - 48, x8c);
    (722 - 48, x11);
    (723 - 48, xc6);
    (724 - 48, x3f);
    (725 - 48, x03);
    (726 - 48, x44);
    (728 - 48, x68);
    (729 - 48, x32);
    (730 - 48, x02);
    (731 - 48, x06);
    (732 - 48, x0a);
    (733 - 48, x98) ].

Definition hooks : wd_module :=
  Build_wd_module _ module_name setup tx_pre_dissection tx_post_dissection
    patch_table.
End Source.
End mac_sch_767_mut11.

(** ** The corpus as data *)

Section Corpus.
Context `{Harness}.

Definition corpus : list wd_module :=
  [ mac_sch_f71_f247.hooks;
    mac_sch_csi_IM_ResourcesForInterference_offset.hooks;
    mac_sch_865_mut2.hooks;
    mac_sch_787_mut3.hooks;
    mac_sch_889_mut9.hooks;
    mac_sch_678_mut3.hooks;
    mac_sch_865_mut4.hooks;
    mac_sch_904_mut8.hooks;
    mac_sch_767_mut11.hooks ].

(** The offsets a table writes, in table order. *)
Definition offsets (P : list (Z * uint8_t)) : list Z := P.*1.

(** The stores of a table, one after the other, on the bytes alone. *)
Fixpoint apply (b : list uint8_t) (P : list (Z * uint8_t))
  : option (list uint8_t) :=
  match P with
  | [] => Some b
  | (k, v) :: P' =>
      match store_byte k v b with
      | Some b' => apply b' P'
      | None => None
      end
  end.

(** The same stores as statements, followed by the rest of the hook. *)
Fixpoint run_table (P : list (Z * uint8_t)) (k : M Z) : M Z :=
  match P with
  | [] => k
  | (o, v) :: P' => (pkt_buf[o] =: v ;; run_table P' k)%cmd
  end.

(** The post-dissection hook every module instantiates with its table. *)
Definition post_engine (P : list (Z * uint8_t)) (pkt_length : Z) : M Z :=
  (f <- get_f1 ;;
   hit <- wd_read_filter f ;;
   if hit : bool then
     wd_log_y "Malformed rrc setup sent!" ;;
     run_table P (ret 1)
   else ret 0)%cmd.

(** The value a table lists last for an offset. *)
Fixpoint last_value (P : list (Z * uint8_t)) (o : Z) : option uint8_t :=
  match P with
  | [] => None
  | (k, v) :: P' =>
      match last_value P' o with
      | Some v' => Some v'
      | None => if k =? o then Some v else None
      end
  end.

(** The match outcome a pass sees. *)
Definition matches (w : world) : bool := query (wd (ctx w)) (f1 w).

(** The world after a matching pass that stored [b]. *)
Definition mutated (b : list uint8_t) (w : world) : world :=
  {| f1 := f1 w; ctx := ctx w; pkt_mem := b;
     wd_filters := wd_filters w;
     wd_log := wd_log w ++ ["Malformed rrc setup sent!"%string] |}.

(** What the harness observes of a pass: the status and the bytes. *)
Definition outcome (r : option (Z * world)) : option (Z * list uint8_t) :=
  match r with
  | Some (st, w') => Some (st, pkt_mem w')
  | None => None
  end.

(** The hook contract of the specification, in its words: "for each entry
    in table order, if offset < length(buffer), overwrite
    buffer[offset] = value; if offset >= length(buffer), skip that single
    write and emit a warning".  The result is the buffer and the number of
    warnings. *)
Fixpoint apply_checked (len : Z) (b : list uint8_t)
    (P : list (Z * uint8_t)) : list uint8_t * nat :=
  match P with
  | [] => (b, 0%nat)
  | (k, v) :: P' =>
      if k <? len
      then apply_checked len (<[Z.to_nat k := v]> b) P'
      else let (b', n) := apply_checked len b P' in (b', S n)
  end.

(** Modelled from the spec: the decode step between the two hooks, which
    leaves the tree of the current packet ([None]: decode failed). *)
Definition decode (tree : option (list string)) (w : world) : world :=
  {| f1 := f1 w;
     ctx := {| config := config (ctx w);
               wd := {| wd_registered := wd_registered (wd (ctx w));
                        wd_dissection := tree |} |};
     pkt_mem := pkt_mem w;
     wd_filters := wd_filters w; wd_log := wd_log w |}.

(** The statement that a pass bounds-checks its stores against
    [pkt_length]: it ends with the bytes of [apply_checked] and has
    printed, after its diagnostic line, one warning per skipped store. *)
Definition skips_out_of_range m (len : Z) w : Prop :=
  exists w',
    tx_post_dissection m len w = Some (1, w') /\
    pkt_mem w' = (apply_checked len (pkt_mem w) (patch_table m)).1 /\
    length (wd_log w') =
      (length (wd_log w) + 1
       + (apply_checked len (pkt_mem w) (patch_table m)).2)%nat.

(** The statement that a matching pass changes exactly the bytes at the
    table's offsets below [pkt_length]. *)
Definition differs_exactly_in_range m (len : Z) w : Prop :=
  exists w',
    tx_post_dissection m len w = Some (1, w') /\
    length (pkt_mem w') = length (pkt_mem w) /\
    forall i : nat,
      pkt_mem w' !! i <> pkt_mem w !! i <->
      Z.of_nat i ∈ offsets (patch_table m) /\ Z.of_nat i < len.
End Corpus.

(** Strictly increasing lists of offsets, as a test. *)
Fixpoint increasing (l : list Z) : bool :=
  match l with
  | a :: (c :: _) as t => (a <? c) && increasing t
  | _ => true
  end.

(** ** A concrete harness and its states *)

(** A harness with no further configuration fields that knows every
    element path. *)
Definition plain_harness : Harness :=
  {| fuzzing_rest := unit; config_rest := unit; resolves := fun _ => true |}.

(** The state in which a module is loaded: [f1] null, the timeout enforced,
    nothing compiled, registered, decoded or printed. *)
Definition loaded (mem : list uint8_t) : @world plain_harness :=
  {| f1 := None;
     ctx := {| config :=
                 {| fuzzing :=
                      {| global_timeout := true;
                         fuzzing_other := (tt : @fuzzing_rest plain_harness) |};
                    config_other := (tt : @config_rest plain_harness) |};
               wd := {| wd_registered := []; wd_dissection := None |} |};
     pkt_mem := mem;
     wd_filters := [];
     wd_log := [] |}.

(** [setup], then [tx_pre_dissection], then the decode of a packet. *)
Definition before_post (m : @wd_module plain_harness) (len : Z)
    (tree : option (list string)) (w : @world plain_harness)
  : option (@world plain_harness) :=
  match setup m w with
  | Some (_, w1) =>
      match tx_pre_dissection m len w1 with
      | Some (_, w2) => Some (decode tree w2)
      | None => None
      end
  | None => None
  end.

(** The state before the post-dissection hook of a packet that decoded to
    an RRC setup. *)
Definition rrc_setup_decoded (mem : list uint8_t) : @world plain_harness :=
  {| f1 := Some "nr-rrc.rrcSetup_element"%string;
     ctx := {| config :=
                 {| fuzzing :=
                      {| global_timeout := false;
                         fuzzing_other := (tt : @fuzzing_rest plain_harness) |};
                    config_other := (tt : @config_rest plain_harness) |};
               wd := {| wd_registered := ["nr-rrc.rrcSetup_element"%string];
                        wd_dissection :=
                          Some ["nr-rrc.rrcSetup_element"%string] |} |};
     pkt_mem := mem;
     wd_filters := ["nr-rrc.rrcSetup_element"%string];
     wd_log := [] |}.

(** ** The life of a loaded module

    The harness that drives the hooks is not part of the corpus.  The
    events below are the calls it can make into one loaded module, in any
    order and number, together with the decode it runs on the current
    packet between the two dissection hooks. *)

Inductive event : Type :=
| ev_module_name
| ev_setup
| ev_tx_pre_dissection (pkt_length : Z)
| ev_decode (tree : option (list string))
| ev_tx_post_dissection (pkt_length : Z).

Section Lifecycle.
Context `{Harness}.

(** One event; the result lists the status of the pass when the event is a
    call of the post-dissection hook. *)
Definition step (m : wd_module) (e : event) : M (list Z) :=
  match e with
  | ev_module_name => (_ <- module_name m ;; ret [])%cmd
  | ev_setup => (_ <- setup m ;; ret [])%cmd
  | ev_tx_pre_dissection len => (_ <- tx_pre_dissection m len ;; ret [])%cmd
  | ev_decode tree => fun w => Some ([], decode tree w)
  | ev_tx_post_dissection len =>
      (st <- tx_post_dissection m len ;; ret [st])%cmd
  end.

(** A sequence of events, with the statuses of its passes in order. *)
Fixpoint run (m : wd_module) (es : list event) : M (list Z) :=
  match es with
  | [] => ret []
  | e :: es' =>
      (sts <- step m e ;; sts' <- run m es' ;; ret (sts ++ sts'))%cmd
  end.

(** The state [setup] leaves. *)
Definition after_setup (w : world) : world :=
  {| f1 := if resolves "nr-rrc.rrcSetup_element"
           then Some "nr-rrc.rrcSetup_element"%string else None;
     ctx := with_global_timeout false (ctx w);
     pkt_mem := pkt_mem w;
     wd_filters := if resolves "nr-rrc.rrcSetup_element"
                   then registry_add "nr-rrc.rrcSetup_element" (wd_filters w)
                   else wd_filters w;
     wd_log := wd_log w |}.

(** The state [tx_pre_dissection] leaves. *)
Definition after_pre (w : world) : world :=
  {| f1 := f1 w;
     ctx := {| config := config (ctx w);
               wd := register (f1 w) (wd (ctx w)) |};
     pkt_mem := pkt_mem w;
     wd_filters := wd_filters w;
     wd_log := wd_log w |}.

(** The value of [ctx->config->fuzzing.global_timeout]. *)
Definition timeout_enforced (w : world) : bool :=
  global_timeout (fuzzing (config (ctx w))).
End Lifecycle.

(** ** Stores and tables *)

Section Tables.
Context `{Harness}.
Implicit Types (b : list uint8_t) (P : list (Z * uint8_t)) (w : world).

Lemma store_byte_Some k v b :
  0 <= k < Z.of_nat (length b) ->
  store_byte k v b = Some (<[Z.to_nat k := v]> b).
Proof.
  intros [H0 H1]. unfold store_byte.
  apply Z.leb_le in H0. apply Z.ltb_lt in H1. by rewrite H0, H1.
Qed.

Lemma store_byte_inv k v b b' :
  store_byte k v b = Some b' ->
  0 <= k < Z.of_nat (length b) /\ b' = <[Z.to_nat k := v]> b.
Proof.
  unfold store_byte. intros Hs.
  destruct (0 <=? k) eqn:H0; [|done].
  destruct (k <? Z.of_nat (length b)) eqn:H1; [|done].
  apply Z.leb_le in H0. apply Z.ltb_lt in H1.
  simpl in Hs. split; [lia | congruence].
Qed.

Lemma store_byte_None k v b :
  store_byte k v b = None <-> ~ 0 <= k < Z.of_nat (length b).
Proof.
  split.
  - intros Hn Hr. by rewrite (store_byte_Some _ v) in Hn.
  - intros Hr. destruct (store_byte k v b) eqn:Hs; [|done].
    apply store_byte_inv in Hs as [? _]. done.
Qed.

Lemma apply_cons k v b P :
  apply b ((k, v) :: P) = store_byte k v b ≫= fun b' => apply b' P.
Proof. simpl. by destruct (store_byte k v b). Qed.

Lemma apply_length b P b' :
  apply b P = Some b' -> length b' = length b.
Proof.
  revert b. induction P as [|[k v] P IH]; intros b; simpl.
  - by intros [= ->].
  - destruct (store_byte k v b) as [b1|] eqn:Hs; [|done].
    intros Ha. apply IH in Ha. apply store_byte_inv in Hs as [_ ->].
    by rewrite length_insert in Ha.
Qed.

(** A table runs to completion exactly when each of its offsets falls
    inside the object. *)
Lemma apply_defined b P :
  Forall (fun o => 0 <= o < Z.of_nat (length b)) (offsets P) ->
  is_Some (apply b P).
Proof.
  revert b. induction P as [|[k v] P IH]; intros b; simpl.
  - by eexists.
  - intros Hf. apply Forall_cons in Hf as [Hk Hf].
    rewrite (store_byte_Some _ _ _ Hk). apply IH.
    by rewrite length_insert.
Qed.

Lemma apply_in_range b P b' :
  apply b P = Some b' ->
  Forall (fun o => 0 <= o < Z.of_nat (length b)) (offsets P).
Proof.
  revert b. induction P as [|[k v] P IH]; intros b; simpl.
  - intros _. constructor.
  - destruct (store_byte k v b) as [b1|] eqn:Hs; [|done].
    apply store_byte_inv in Hs as [Hk ->]. intros Ha.
    apply IH in Ha. rewrite length_insert in Ha. by constructor.
Qed.

Lemma last_value_offsets P o v :
  last_value P o = Some v -> o ∈ offsets P.
Proof.
  unfold offsets. induction P as [|[k u] P IH]; simpl; [done|].
  rewrite elem_of_cons. destruct (last_value P o) as [v'|].
  - intros Hv. right. by apply IH.
  - destruct (k =? o) eqn:Hk; [|done].
    apply Z.eqb_eq in Hk. intros _. by left.
Qed.

Lemma last_value_None P o :
  last_value P o = None <-> o ∉ offsets P.
Proof.
  induction P as [|[k u] P IH]; simpl.
  - split; [intros _; apply not_elem_of_nil | done].
  - rewrite not_elem_of_cons, <- IH.
    destruct (last_value P o) as [v'|].
    { split; [done | by intros [_ ?]]. }
    destruct (k =? o) eqn:Hk.
    + apply Z.eqb_eq in Hk. split; [done | by intros [? _]].
    + apply Z.eqb_neq in Hk. split; [|done]. intros _. split; congruence.
Qed.

Lemma last_value_is_Some P k v :
  (k, v) ∈ P -> is_Some (last_value P k).
Proof.
  intros Hin. destruct (last_value P k) eqn:Hl; [by eexists|].
  apply last_value_None in Hl. exfalso. apply Hl.
  unfold offsets. apply list_elem_of_fmap. by exists (k, v).
Qed.

(** With no offset listed twice, the last value for an offset is the
    value of its one entry. *)
Lemma last_value_NoDup P k v :
  NoDup (offsets P) -> (k, v) ∈ P -> last_value P k = Some v.
Proof.
  induction P as [|[k' v'] P IH]; simpl; [by intros _ ?%elem_of_nil|].
  intros [Hk' Hnd]%NoDup_cons [[= <- <-]|Hin]%elem_of_cons.
  - apply last_value_None in Hk'. rewrite Hk'. by rewrite Z.eqb_refl.
  - by rewrite (IH Hnd Hin).
Qed.

(** After a table has run, a byte holds the value listed last for its
    index, and its old value when the table does not list the index. *)
Lemma apply_lookup b P b' (i : nat) :
  apply b P = Some b' ->
  b' !! i = match last_value P (Z.of_nat i) with
            | Some v => Some v
            | None => b !! i
            end.
Proof.
  revert b. induction P as [|[k v] P IH]; intros b; simpl.
  - by intros [= ->].
  - destruct (store_byte k v b) as [b1|] eqn:Hs; [|done].
    apply store_byte_inv in Hs as [Hk ->]. intros Ha.
    rewrite (IH _ Ha). destruct (last_value P (Z.of_nat i)); [done|].
    destruct (k =? Z.of_nat i) eqn:Hki.
    + apply Z.eqb_eq in Hki. subst k. rewrite Nat2Z.id.
      apply list_lookup_insert_eq. lia.
    + apply Z.eqb_neq in Hki. apply list_lookup_insert_ne. lia.
Qed.

Lemma store_byte_commute k1 v1 k2 v2 b :
  k1 <> k2 ->
  (store_byte k1 v1 b ≫= store_byte k2 v2)
  = (store_byte k2 v2 b ≫= store_byte k1 v1).
Proof.
  intros Hne.
  destruct (store_byte k1 v1 b) as [b1|] eqn:H1;
    destruct (store_byte k2 v2 b) as [b2|] eqn:H2; simpl.
  - apply store_byte_inv in H1 as [Hk1 ->].
    apply store_byte_inv in H2 as [Hk2 ->].
    rewrite !store_byte_Some by (rewrite length_insert; lia).
    f_equal. apply list_insert_insert_ne. lia.
  - apply store_byte_inv in H1 as [Hk1 ->].
    apply store_byte_None. rewrite length_insert.
    by apply store_byte_None in H2.
  - apply store_byte_inv in H2 as [Hk2 ->]. symmetry.
    apply store_byte_None. rewrite length_insert.
    by apply store_byte_None in H1.
  - done.
Qed.

(** The order of the entries matters only when offsets collide. *)
Lemma apply_Permutation P P' :
  P ≡ₚ P' -> NoDup (offsets P) -> forall b, apply b P = apply b P'.
Proof.
  induction 1 as [|[k v] P P' Hp IH|[k1 v1] [k2 v2] P|P P' P'' Hp1 IH1 Hp2 IH2];
    intros Hnd b.
  - done.
  - rewrite !apply_cons. apply NoDup_cons in Hnd as [_ Hnd].
    destruct (store_byte k v b); simpl; [by apply IH | done].
  - unfold offsets in Hnd. simpl in Hnd.
    apply NoDup_cons in Hnd as [Hne _].
    rewrite not_elem_of_cons in Hne. destruct Hne as [Hne _].
    rewrite !apply_cons.
    transitivity ((store_byte k2 v2 b ≫= store_byte k1 v1)
                    ≫= fun b' => apply b' P).
    + destruct (store_byte k2 v2 b) as [b2|]; simpl; [|done].
      by destruct (store_byte k1 v1 b2).
    + rewrite store_byte_commute by done.
      destruct (store_byte k1 v1 b) as [b1|]; simpl; [|done].
      by destruct (store_byte k2 v2 b1).
  - rewrite IH1 by done. apply IH2.
    unfold offsets in *. by rewrite <- Hp1.
Qed.

(** Running a table on the bytes it produced changes nothing. *)
Lemma apply_again b P b' :
  apply b P = Some b' -> apply b' P = Some b'.
Proof.
  intros Ha.
  destruct (apply_defined b' P) as [b'' Hb''].
  { rewrite (apply_length _ _ _ Ha). by eapply apply_in_range. }
  rewrite Hb''. f_equal. apply list_eq. intros i.
  rewrite (apply_lookup _ _ _ i Hb'').
  rewrite (apply_lookup _ _ _ i Ha).
  by destruct (last_value P (Z.of_nat i)).
Qed.

(** The statements of a table are the table on the bytes. *)
Lemma run_table_apply P (k : M Z) w :
  run_table P k w =
  match apply (pkt_mem w) P with
  | Some b => k {| f1 := f1 w; ctx := ctx w; pkt_mem := b;
                   wd_filters := wd_filters w; wd_log := wd_log w |}
  | None => None
  end.
Proof.
  revert w. induction P as [|[o v] P IH]; intros w; simpl.
  - by destruct w.
  - unfold bind, pkt_store.
    destruct (store_byte o v (pkt_mem w)); [|done].
    by rewrite IH.
Qed.

(** A pass of the engine, by cases on the match outcome. *)
Lemma post_engine_eq P len w :
  post_engine P len w =
  if matches w
  then match apply (pkt_mem w) P with
       | Some b => Some (1, mutated b w)
       | None => None
       end
  else Some (0, w).
Proof.
  unfold post_engine, bind, get_f1, wd_read_filter, matches. simpl.
  destruct (query (wd (ctx w)) (f1 w)); [|done].
  unfold wd_log_y. by rewrite run_table_apply.
Qed.
End Tables.

(** ** The modules of the corpus *)

Ltac corpus_cases Hm :=
  unfold corpus in Hm;
  repeat (apply elem_of_cons in Hm as [-> | Hm]);
  [ .. | by apply elem_of_nil in Hm ].

Lemma increasing_Sorted l : increasing l = true -> Sorted Z.lt l.
Proof.
  induction l as [|a [|c t] IH]; simpl; intros Hi.
  - constructor.
  - repeat constructor.
  - apply andb_true_iff in Hi as [Hac Ht]. apply Z.ltb_lt in Hac.
    constructor; [by apply IH | by constructor].
Qed.

Lemma increasing_StronglySorted l :
  increasing l = true -> StronglySorted Z.lt l.
Proof.
  intros Hi. apply Sorted_StronglySorted; [|by apply increasing_Sorted].
  intros x y z. apply Z.lt_trans.
Qed.

Lemma StronglySorted_lt_NoDup (l : list Z) : StronglySorted Z.lt l -> NoDup l.
Proof.
  induction 1 as [|a l Hs IH Hall]; constructor; [|done].
  intros Hin. rewrite Forall_forall in Hall.
  specialize (Hall a Hin). lia.
Qed.

Section Modules.
Context `{Harness}.
Implicit Types (b : list uint8_t) (P : list (Z * uint8_t)) (w : world)
  (m : wd_module).

(** Every module's post-dissection hook is the engine on its table. *)
Lemma corpus_post m :
  m ∈ corpus ->
  forall len w,
    tx_post_dissection m len w = post_engine (patch_table m) len w.
Proof. intros Hm len w. corpus_cases Hm; reflexivity. Qed.

Lemma corpus_setup m :
  m ∈ corpus -> setup m = mac_sch_f71_f247.setup.
Proof. intros Hm. corpus_cases Hm; reflexivity. Qed.

Lemma corpus_module_name m :
  m ∈ corpus -> module_name m = ret "Mediatek"%string.
Proof. intros Hm. corpus_cases Hm; reflexivity. Qed.

Lemma corpus_increasing m :
  m ∈ corpus -> increasing (offsets (patch_table m)) = true.
Proof. intros Hm. corpus_cases Hm; vm_compute; reflexivity. Qed.

Lemma corpus_bounds m :
  m ∈ corpus ->
  forallb (fun o => (26 <=? o) && (o <=? 687)) (offsets (patch_table m))
  = true.
Proof. intros Hm. corpus_cases Hm; vm_compute; reflexivity. Qed.

Lemma corpus_NoDup m : m ∈ corpus -> NoDup (offsets (patch_table m)).
Proof.
  intros Hm. apply StronglySorted_lt_NoDup, increasing_StronglySorted.
  by apply corpus_increasing.
Qed.

(** A matching pass of a module, in terms of its table. *)
Lemma corpus_post_matched m len w :
  m ∈ corpus -> matches w = true ->
  tx_post_dissection m len w =
  match apply (pkt_mem w) (patch_table m) with
  | Some b => Some (1, mutated b w)
  | None => None
  end.
Proof.
  intros Hm Hw. rewrite corpus_post, post_engine_eq by done.
  by rewrite Hw.
Qed.

Lemma corpus_post_unmatched m len w :
  m ∈ corpus -> matches w = false ->
  tx_post_dissection m len w = Some (0, w).
Proof.
  intros Hm Hw. rewrite corpus_post, post_engine_eq by done.
  by rewrite Hw.
Qed.

(** What a table that ran to completion leaves in the bytes. *)
Lemma apply_result b P b' :
  apply b P = Some b' -> NoDup (offsets P) ->
  length b' = length b /\
  (forall k v, (k, v) ∈ P -> b' !! Z.to_nat k = Some v) /\
  (forall i : nat, Z.of_nat i ∉ offsets P -> b' !! i = b !! i).
Proof.
  intros Ha Hnd. split; [by eapply apply_length|]. split.
  - intros k v Hin.
    assert (0 <= k) as Hk.
    { apply apply_in_range in Ha. rewrite Forall_forall in Ha.
      apply (Ha k). unfold offsets. apply list_elem_of_fmap.
      by exists (k, v). }
    rewrite (apply_lookup _ _ _ _ Ha), Z2Nat.id by done.
    by rewrite (last_value_NoDup _ _ _ Hnd Hin).
  - intros i Hi. rewrite (apply_lookup _ _ _ _ Ha).
    apply last_value_None in Hi. by rewrite Hi.
Qed.
End Modules.

(** ** Properties of the hooks *)

Section Claims.
Context `{Harness}.
Implicit Types (b : list uint8_t) (P : list (Z * uint8_t)) (w : world)
  (m : wd_module).

(** C1, as the modules have it: a matching pass performs every store of
    the table whose offset lies inside the memory behind [pkt_buf],
    whatever [pkt_length] is; no store is skipped, the only line printed
    is the diagnostic one, every entry is applied and the extent of the
    buffer does not change. *)
Theorem stores_ignore_pkt_length m (len : Z) w :
  m ∈ corpus ->
  matches w = true ->
  Forall (fun o => 0 <= o < Z.of_nat (length (pkt_mem w)))
         (offsets (patch_table m)) ->
  exists b,
    tx_post_dissection m len w = Some (1, mutated b w) /\
    wd_log (mutated b w) = wd_log w ++ ["Malformed rrc setup sent!"%string] /\
    length b = length (pkt_mem w) /\
    (forall k v, (k, v) ∈ patch_table m -> b !! Z.to_nat k = Some v) /\
    (forall i : nat,
        Z.of_nat i ∉ offsets (patch_table m) -> b !! i = pkt_mem w !! i).
Proof.
  intros Hm Hw Hr. destruct (apply_defined _ _ Hr) as [b Hb].
  exists b. rewrite corpus_post_matched, Hb by done.
  split; [done|]. split; [done|].
  apply (apply_result _ _ _ Hb). by apply corpus_NoDup.
Qed.

(** C2, as the modules have it: for a packet whose filter matches and
    whose buffer holds every offset of the table below [pkt_length], the
    hook returns 1, every patched offset holds the table's value, the
    length is unchanged, and a byte that differs from the input sits at a
    patched offset. *)
Theorem post_matched_frame m (len : Z) w :
  m ∈ corpus ->
  matches w = true ->
  len <= Z.of_nat (length (pkt_mem w)) ->
  Forall (fun o => o < len) (offsets (patch_table m)) ->
  exists w',
    tx_post_dissection m len w = Some (1, w') /\
    length (pkt_mem w') = length (pkt_mem w) /\
    (forall k v,
        (k, v) ∈ patch_table m -> pkt_mem w' !! Z.to_nat k = Some v) /\
    (forall i : nat,
        pkt_mem w' !! i <> pkt_mem w !! i ->
        Z.of_nat i ∈ offsets (patch_table m) /\ Z.of_nat i < len).
Proof.
  intros Hm Hw Hlen Hr.
  assert (Forall (fun o => 0 <= o < Z.of_nat (length (pkt_mem w)))
                 (offsets (patch_table m))) as Hin.
  { pose proof (corpus_bounds m Hm) as Hb.
    rewrite forallb_forall in Hb. rewrite Forall_forall in Hr |- *.
    intros o Ho. specialize (Hr o Ho).
    apply list_elem_of_In, Hb, andb_true_iff in Ho as [Ho _].
    apply Z.leb_le in Ho. lia. }
  destruct (apply_defined _ _ Hin) as [b Hb].
  exists (mutated b w). rewrite corpus_post_matched, Hb by done.
  destruct (apply_result _ _ _ Hb (corpus_NoDup m Hm)) as (Hl & Hv & Hf).
  split; [done|]. split; [done|]. split; [done|].
  intros i Hi. simpl in Hi.
  destruct (decide (Z.of_nat i ∈ offsets (patch_table m))) as [Ho|Ho].
  - split; [done|]. rewrite Forall_forall in Hr. by apply Hr.
  - by rewrite Hf in Hi.
Qed.

(** C3: when the filter of a module does not match, and in particular
    when decode failed, the post-dissection hook returns 0 and leaves the
    buffer (and everything else) as it was. *)
Theorem post_unmatched_unchanged m (len : Z) w :
  m ∈ corpus ->
  matches w = false \/ wd_dissection (wd (ctx w)) = None ->
  matches w = false /\
  tx_post_dissection m len w = Some (0, w) /\
  outcome (tx_post_dissection m len w) = Some (0, pkt_mem w).
Proof.
  intros Hm Hw.
  assert (matches w = false) as Hq.
  { destruct Hw as [Hw|Hw]; [done|].
    unfold matches, query. rewrite Hw. by destruct (f1 w). }
  by rewrite corpus_post_unmatched.
Qed.

(** What a table whose offsets all lie inside the buffer leaves in the
    bytes. *)
Lemma apply_sets_last_values b P (len : Z) :
  len <= Z.of_nat (length b) ->
  Forall (fun o => 0 <= o < len) (offsets P) ->
  exists b',
    apply b P = Some b' /\
    length b' = length b /\
    (forall o, o ∈ offsets P ->
       exists v, last_value P o = Some v /\ b' !! Z.to_nat o = Some v) /\
    (forall i : nat, Z.of_nat i ∉ offsets P -> b' !! i = b !! i) /\
    (forall P', P' ≡ₚ P -> NoDup (offsets P) -> apply b P' = Some b').
Proof.
  intros Hlen Hr.
  assert (Forall (fun o => 0 <= o < Z.of_nat (length b)) (offsets P))
    as Hin.
  { eapply Forall_impl; [exact Hr|]. simpl. lia. }
  destruct (apply_defined _ _ Hin) as [b' Hb]. exists b'.
  split; [done|]. split; [by eapply apply_length|]. split; [|split].
  - intros o Ho.
    destruct (last_value P o) as [v|] eqn:Hl.
    + exists v. split; [done|].
      rewrite Forall_forall in Hr. specialize (Hr o Ho).
      rewrite (apply_lookup _ _ _ _ Hb), Z2Nat.id by lia.
      by rewrite Hl.
    + by apply last_value_None in Hl.
  - intros i Hi. rewrite (apply_lookup _ _ _ _ Hb).
    apply last_value_None in Hi. by rewrite Hi.
  - intros P' Hp Hnd. rewrite <- Hb. apply apply_Permutation; [done|].
    unfold offsets in *. by rewrite Hp.
Qed.

(** C4: when every offset of a table is below the length of the buffer, a
    matching pass of the post-dissection hook with that table (the hook of
    every module of the corpus that carries it) completes with status 1,
    keeps the length of the buffer and leaves at each offset the value the
    table lists last for it, every other byte being unchanged; the order of
    the entries is immaterial as soon as no offset is listed twice. *)
Theorem post_last_write_wins P (len : Z) w :
  matches w = true ->
  len <= Z.of_nat (length (pkt_mem w)) ->
  Forall (fun o => 0 <= o < len) (offsets P) ->
  exists b',
    post_engine P len w = Some (1, mutated b' w) /\
    (forall m, m ∈ corpus -> patch_table m = P ->
               tx_post_dissection m len w = Some (1, mutated b' w)) /\
    length b' = length (pkt_mem w) /\
    (forall o, o ∈ offsets P ->
       exists v, last_value P o = Some v /\ b' !! Z.to_nat o = Some v) /\
    (forall i : nat, Z.of_nat i ∉ offsets P -> b' !! i = pkt_mem w !! i) /\
    (forall P', P' ≡ₚ P -> NoDup (offsets P) ->
                post_engine P' len w = Some (1, mutated b' w)).
Proof.
  intros Hw Hlen Hr.
  destruct (apply_sets_last_values (pkt_mem w) P len Hlen Hr)
    as (b' & Hb & Hl & Hv & Hf & Hp).
  exists b'. split; [by rewrite post_engine_eq, Hw, Hb|].
  split; [|split; [done|split; [done|split; [done|]]]].
  - intros m Hm <-. by rewrite corpus_post, post_engine_eq, Hw, Hb.
  - intros P' HP' Hnd. by rewrite post_engine_eq, Hw, (Hp P' HP' Hnd).
Qed.

(** C5: running a table on the bytes it has produced yields the same
    bytes: [apply (apply B P) P = apply B P]. *)
Theorem apply_idempotent b P :
  (apply b P ≫= fun b' => apply b' P) = apply b P.
Proof.
  destruct (apply b P) as [b'|] eqn:Ha; simpl; [|done].
  by eapply apply_again.
Qed.

(** C6: on a buffer of 800 bytes whose filter matches, the hook of
    mac_sch_f71_f247 (table [(75,0x09); (218,0x6d); (219,0x84)], written
    123 - 48, 266 - 48 and 267 - 48) returns 1, leaves 0x09, 0x6d and 0x84
    at 75, 218 and 219, and changes no other byte. *)
Theorem scenario_A w :
  length (pkt_mem w) = 800%nat ->
  matches w = true ->
  mac_sch_f71_f247.patch_table = [(75, x09); (218, x6d); (219, x84)] /\
  exists w',
    mac_sch_f71_f247.tx_post_dissection 800 w = Some (1, w') /\
    length (pkt_mem w') = 800%nat /\
    pkt_mem w' !! 75%nat = Some x09 /\
    pkt_mem w' !! 218%nat = Some x6d /\
    pkt_mem w' !! 219%nat = Some x84 /\
    (forall i : nat,
        i <> 75%nat -> i <> 218%nat -> i <> 219%nat ->
        pkt_mem w' !! i = pkt_mem w !! i).
Proof.
  intros Hlen Hw. split; [reflexivity|].
  exists (mutated (<[219%nat := x84]>
                     (<[218%nat := x6d]> (<[75%nat := x09]> (pkt_mem w)))) w).
  split.
  - change (mac_sch_f71_f247.tx_post_dissection 800 w)
      with (post_engine [(75, x09); (218, x6d); (219, x84)] 800 w).
    rewrite post_engine_eq, Hw.
    do 3 (rewrite apply_cons,
            store_byte_Some by (rewrite ?length_insert, Hlen; lia);
          cbn [mbind option_bind]).
    reflexivity.
  - simpl. rewrite !length_insert.
    split; [done|]. split; [|split; [|split]].
    + rewrite !list_lookup_insert_ne by lia.
      apply list_lookup_insert_eq. lia.
    + rewrite list_lookup_insert_ne by lia.
      apply list_lookup_insert_eq. rewrite length_insert. lia.
    + apply list_lookup_insert_eq. rewrite !length_insert. lia.
    + intros i H1 H2 H3. by rewrite !list_lookup_insert_ne by lia.
Qed.

(** C7: the status and the output bytes of a pass are a function of the
    input bytes and of the match outcome alone: two passes of a module
    that agree on both agree on the result, whatever the rest of the
    state and the [pkt_length] passed. *)
Theorem post_deterministic m (len1 len2 : Z) (w1 w2 : world) :
  m ∈ corpus ->
  pkt_mem w1 = pkt_mem w2 ->
  matches w1 = matches w2 ->
  outcome (tx_post_dissection m len1 w1)
  = outcome (tx_post_dissection m len2 w2).
Proof.
  intros Hm Hb Hq.
  rewrite !corpus_post, !post_engine_eq by done.
  rewrite Hq, Hb. destruct (matches w2); [|by simpl; rewrite Hb].
  by destruct (apply (pkt_mem w2) (patch_table m)).
Qed.

(** C8: the setup of every module stores false in
    [ctx->config->fuzzing.global_timeout], compiles the one filter
    "nr-rrc.rrcSetup_element" into [f1], leaves every other field
    reachable from the context as it was, and returns 0. *)
Theorem setup_effect m w :
  m ∈ corpus ->
  exists w',
    setup m w = Some (0, w') /\
    global_timeout (fuzzing (config (ctx w'))) = false /\
    fuzzing_other (fuzzing (config (ctx w')))
      = fuzzing_other (fuzzing (config (ctx w))) /\
    config_other (config (ctx w')) = config_other (config (ctx w)) /\
    wd (ctx w') = wd (ctx w) /\
    pkt_mem w' = pkt_mem w /\
    wd_log w' = wd_log w /\
    (f1 w', wd_filters w') =
      if resolves "nr-rrc.rrcSetup_element"
      then (Some "nr-rrc.rrcSetup_element"%string,
            registry_add "nr-rrc.rrcSetup_element" (wd_filters w))
      else (None, wd_filters w).
Proof.
  intros Hm. rewrite (corpus_setup m Hm).
  unfold mac_sch_f71_f247.setup, bind, set_global_timeout, wd_filter,
    set_f1, ret. simpl.
  destruct (resolves "nr-rrc.rrcSetup_element");
    eexists; (split; [reflexivity|]); simpl; repeat split.
Qed.

(** C9: in every module the offsets of the table (source literal minus
    48) are strictly increasing, hence pairwise distinct, and lie between
    26 and 687; so the entries can be applied in any order with the same
    result. *)
Theorem tables_sorted_distinct m :
  m ∈ corpus ->
  StronglySorted Z.lt (offsets (patch_table m)) /\
  NoDup (offsets (patch_table m)) /\
  Forall (fun o => 26 <= o <= 687) (offsets (patch_table m)) /\
  (forall k v, (k, v) ∈ patch_table m ->
               last_value (patch_table m) k = Some v) /\
  (forall P' b, P' ≡ₚ patch_table m -> apply b P' = apply b (patch_table m)).
Proof.
  intros Hm. pose proof (corpus_NoDup m Hm) as Hnd.
  split; [by apply increasing_StronglySorted, corpus_increasing|].
  split; [done|]. split; [|split].
  - pose proof (corpus_bounds m Hm) as Hb.
    rewrite forallb_forall in Hb. apply Forall_forall. intros o Ho.
    apply list_elem_of_In, Hb, andb_true_iff in Ho as [H1 H2].
    apply Z.leb_le in H1, H2. lia.
  - intros k v. by apply last_value_NoDup.
  - intros P' b Hp. apply apply_Permutation; [done|].
    unfold offsets in *. by rewrite Hp.
Qed.

(** C10: [module_name] of every module returns "Mediatek" and leaves the
    buffer, the context and all other state as they were. *)
Theorem module_name_pure m w :
  m ∈ corpus -> module_name m w = Some ("Mediatek"%string, w).
Proof. intros Hm. by rewrite (corpus_module_name m Hm). Qed.
End Claims.

(** ** Sequences of calls *)

Section Runs.
Context `{Harness}.
Implicit Types (b : list uint8_t) (P : list (Z * uint8_t)) (w : world)
  (m : wd_module) (es : list event) (sts : list Z).

Lemma corpus_pre m :
  m ∈ corpus -> tx_pre_dissection m = mac_sch_f71_f247.tx_pre_dissection.
Proof. intros Hm. corpus_cases Hm; reflexivity. Qed.

Lemma setup_eq m w : m ∈ corpus -> setup m w = Some (0, after_setup w).
Proof.
  intros Hm. rewrite (corpus_setup m Hm).
  unfold mac_sch_f71_f247.setup, bind, set_global_timeout, wd_filter,
    set_f1, ret, after_setup. simpl.
  by destruct (resolves "nr-rrc.rrcSetup_element").
Qed.

Lemma pre_eq m len w :
  m ∈ corpus -> tx_pre_dissection m len w = Some (0, after_pre w).
Proof. intros Hm. by rewrite (corpus_pre m Hm). Qed.

(** One event of a module of the corpus, by cases. *)
Lemma step_eq m e w :
  m ∈ corpus ->
  step m e w =
  match e with
  | ev_module_name => Some ([], w)
  | ev_setup => Some ([], after_setup w)
  | ev_tx_pre_dissection _ => Some ([], after_pre w)
  | ev_decode tree => Some ([], decode tree w)
  | ev_tx_post_dissection _ =>
      if matches w
      then match apply (pkt_mem w) (patch_table m) with
           | Some b => Some ([1], mutated b w)
           | None => None
           end
      else Some ([0], w)
  end.
Proof.
  intros Hm. destruct e as [| |len|tree|len]; unfold step, bind.
  - by rewrite (corpus_module_name m Hm).
  - by rewrite setup_eq.
  - by rewrite pre_eq.
  - done.
  - rewrite corpus_post, post_engine_eq by done.
    destruct (matches w); [|done].
    by destruct (apply (pkt_mem w) (patch_table m)).
Qed.

Lemma run_cons m e es w :
  run m (e :: es) w =
  match step m e w with
  | Some (sts, w1) =>
      match run m es w1 with
      | Some (sts', w') => Some (sts ++ sts', w')
      | None => None
      end
  | None => None
  end.
Proof.
  simpl. unfold bind. destruct (step m e w) as [[sts w1]|]; [|done].
  by destruct (run m es w1) as [[sts' w']|].
Qed.

(** What one event does to the state, in the three shapes it can take. *)
Lemma step_cases m e w sts w1 :
  m ∈ corpus ->
  step m e w = Some (sts, w1) ->
  (sts = [] /\ pkt_mem w1 = pkt_mem w /\ wd_log w1 = wd_log w /\
   (e = ev_module_name /\ w1 = w \/ e = ev_setup /\ w1 = after_setup w \/
    (exists len, e = ev_tx_pre_dissection len) /\ w1 = after_pre w \/
    exists tree, e = ev_decode tree /\ w1 = decode tree w)) \/
  (sts = [0] /\ w1 = w /\ matches w = false /\
   exists len, e = ev_tx_post_dissection len) \/
  (sts = [1] /\ matches w = true /\
   (exists len, e = ev_tx_post_dissection len) /\
   exists b, apply (pkt_mem w) (patch_table m) = Some b /\ w1 = mutated b w).
Proof.
  intros Hm. rewrite step_eq by done.
  destruct e as [| |len|tree|len].
  - intros [= <- <-]. left. naive_solver.
  - intros [= <- <-]. left. naive_solver.
  - intros [= <- <-]. left. naive_solver.
  - intros [= <- <-]. left. naive_solver.
  - destruct (matches w) eqn:Hw.
    + destruct (apply (pkt_mem w) (patch_table m)) as [b|] eqn:Hb; [|done].
      intros [= <- <-]. right. right. naive_solver.
    + intros [= <- <-]. right. left. naive_solver.
Qed.

(** X1: whatever the harness calls, and however often, the bytes of the
    buffer take at most two values: they are the initial bytes as long as
    no pass has returned 1, and the table applied once to the initial bytes
    from then on. *)
Theorem run_buffer_two_states m es w sts w' :
  m ∈ corpus ->
  run m es w = Some (sts, w') ->
  ((1 ∉ sts) /\ pkt_mem w' = pkt_mem w) \/
  (1 ∈ sts /\ apply (pkt_mem w) (patch_table m) = Some (pkt_mem w')).
Proof.
  intros Hm. revert w sts. induction es as [|e es IH]; intros w sts.
  - intros [= <- <-]. left. split; [apply not_elem_of_nil | done].
  - rewrite run_cons.
    destruct (step m e w) as [[s1 w1]|] eqn:Hs; [|done].
    destruct (run m es w1) as [[s2 w2]|] eqn:Hr; [|done].
    intros [= <- <-]. specialize (IH _ _ Hr).
    destruct (step_cases _ _ _ _ _ Hm Hs)
      as [(-> & Hmem & _)|[(-> & -> & _)|(-> & _ & _ & b & Hb & ->)]].
    + simpl. by rewrite <- Hmem.
    + simpl. rewrite elem_of_cons.
      destruct IH as [[Hn He]|[Hi He]]; [left|right]; split; try done.
      * intros [|]; [lia | done].
      * by right.
    + right. split; [simpl; left|].
      simpl in IH. destruct IH as [[_ ->]|[_ He]]; [done|].
      rewrite (apply_again _ _ _ Hb) in He. by injection He as <-.
Qed.

(** X2: no call changes the extent of the buffer or a configuration field
    other than [global_timeout]; once [global_timeout] is false it stays
    false, it is false after any sequence that contains a [setup], and
    without a [setup] neither it nor the global [f1] changes. *)
Theorem run_invariants m es w sts w' :
  m ∈ corpus ->
  run m es w = Some (sts, w') ->
  length (pkt_mem w') = length (pkt_mem w) /\
  fuzzing_other (fuzzing (config (ctx w')))
  = fuzzing_other (fuzzing (config (ctx w))) /\
  config_other (config (ctx w')) = config_other (config (ctx w)) /\
  (timeout_enforced w = false -> timeout_enforced w' = false) /\
  (ev_setup ∈ es -> timeout_enforced w' = false) /\
  (ev_setup ∉ es ->
   timeout_enforced w' = timeout_enforced w /\ f1 w' = f1 w).
Proof.
  intros Hm. revert w sts. induction es as [|e es IH]; intros w sts.
  - intros [= <- <-]. repeat split; try done. by intros ?%elem_of_nil.
  - rewrite run_cons.
    destruct (step m e w) as [[s1 w1]|] eqn:Hs; [|done].
    destruct (run m es w1) as [[s2 w2]|] eqn:Hr; [|done].
    intros [= <- <-].
    destruct (IH _ _ Hr) as (Hl & Hfo & Hco & Hkeep & Hset & Hno).
    rewrite elem_of_cons.
    destruct (step_cases _ _ _ _ _ Hm Hs)
      as [(_ & _ & _ & Hc)|[(_ & -> & _ & len & ->)|
                            (_ & _ & (len & ->) & b & Hb & ->)]].
    + destruct Hc as [[-> ->]|[[-> ->]|[[[len ->] ->]|(tree & -> & ->)]]];
        unfold timeout_enforced in *; simpl in *;
        intuition (try congruence).
    + intuition (try congruence).
    + unfold timeout_enforced in *. simpl in *.
      rewrite (apply_length _ _ _ Hb) in Hl.
      intuition (try congruence).
Qed.

(** X3: every status of a pass is 0 or 1, and the log grows by exactly one
    diagnostic line per pass that returned 1 and by nothing else. *)
Theorem run_log m es w sts w' :
  m ∈ corpus ->
  run m es w = Some (sts, w') ->
  Forall (fun st => st = 0 \/ st = 1) sts /\
  wd_log w' =
    wd_log w ++ replicate (length (filter (fun st => st = 1) sts))
                          "Malformed rrc setup sent!"%string.
Proof.
  intros Hm. revert w sts. induction es as [|e es IH]; intros w sts.
  - intros [= <- <-]. split; [constructor|]. simpl. by rewrite app_nil_r.
  - rewrite run_cons.
    destruct (step m e w) as [[s1 w1]|] eqn:Hs; [|done].
    destruct (run m es w1) as [[s2 w2]|] eqn:Hr; [|done].
    intros [= <- <-]. destruct (IH _ _ Hr) as [Hall Hlog].
    destruct (step_cases _ _ _ _ _ Hm Hs)
      as [(-> & _ & Hl & _)|[(-> & -> & _)|(-> & _ & _ & b & _ & ->)]].
    + simpl. by rewrite <- Hl.
    + cbn [app]. split; [constructor; [by left | done]|].
      rewrite filter_cons_False by lia. done.
    + cbn [app]. split; [constructor; [by right | done]|].
      rewrite filter_cons_True by done. simpl in *.
      by rewrite Hlog, <- app_assoc.
Qed.

(** X4: the status of a pass reflects the match outcome and nothing else,
    and a pass leaves the global [f1], the context (configuration and
    dissector) and the filter registry as they were. *)
Theorem post_status_frame m (len : Z) w st w' :
  m ∈ corpus ->
  tx_post_dissection m len w = Some (st, w') ->
  (st = 1 /\ matches w = true \/ st = 0 /\ matches w = false) /\
  f1 w' = f1 w /\ ctx w' = ctx w /\ wd_filters w' = wd_filters w /\
  matches w' = matches w.
Proof.
  intros Hm. rewrite corpus_post, post_engine_eq by done.
  destruct (matches w) eqn:Hw.
  - destruct (apply (pkt_mem w) (patch_table m)) as [b|]; [|done].
    intros [= <- <-]. split; [by left|]. done.
  - intros [= <- <-]. split; [by right|]. done.
Qed.

(** X5: a matching pass returns 1 with the bytes of the buffer unchanged
    exactly when the buffer already holds the value of every entry of the
    table. *)
Theorem post_mutated_without_change m (len : Z) w :
  m ∈ corpus ->
  matches w = true ->
  outcome (tx_post_dissection m len w) = Some (1, pkt_mem w) <->
  (forall k v, (k, v) ∈ patch_table m -> pkt_mem w !! Z.to_nat k = Some v).
Proof.
  intros Hm Hw. rewrite corpus_post_matched by done.
  pose proof (corpus_NoDup m Hm) as Hnd. split.
  - destruct (apply (pkt_mem w) (patch_table m)) as [b|] eqn:Hb; [|done].
    simpl. intros [= ->]. by apply (apply_result _ _ _ Hb).
  - intros Hv.
    destruct (apply_defined (pkt_mem w) (patch_table m)) as [b Hb].
    { pose proof (corpus_bounds m Hm) as Hbd.
      rewrite forallb_forall in Hbd. apply Forall_forall. intros o Ho.
      pose proof Ho as Ho'.
      apply list_elem_of_In, Hbd, andb_true_iff in Ho' as [Ho' _].
      apply Z.leb_le in Ho'.
      apply list_elem_of_fmap in Ho as [[k v] [-> Hin]]. simpl in *.
      apply Hv, lookup_lt_Some in Hin. lia. }
    rewrite Hb. simpl. do 2 f_equal. apply list_eq. intros i.
    rewrite (apply_lookup _ _ _ _ Hb).
    destruct (last_value (patch_table m) (Z.of_nat i)) as [v|] eqn:Hl;
      [|done].
    assert ((Z.of_nat i, v) ∈ patch_table m) as Hin.
    { pose proof (last_value_offsets _ _ _ Hl) as Ho.
      apply list_elem_of_fmap in Ho as [[k u] [Hk Hin]]. simpl in Hk.
      subst k. rewrite (last_value_NoDup _ _ _ Hnd Hin) in Hl.
      by injection Hl as ->. }
    apply Hv in Hin. by rewrite Nat2Z.id in Hin.
Qed.

Lemma apply_None_iff b P :
  apply b P = None <->
  Exists (fun o => ~ 0 <= o < Z.of_nat (length b)) (offsets P).
Proof.
  split.
  - intros Hn. apply not_Forall_Exists; [apply _|].
    intros Hall. apply apply_defined in Hall as [b' Hb']. congruence.
  - intros He. destruct (apply b P) as [b'|] eqn:Hb; [|done].
    apply apply_in_range in Hb. apply Exists_not_Forall in He. done.
Qed.

(** X6: a pass has no defined result exactly when the filter matches and
    some offset of the table lies outside the memory behind [pkt_buf]; a
    pass whose filter does not match is defined on every buffer, also an
    empty one. *)
Theorem post_undefined_iff m (len : Z) w :
  m ∈ corpus ->
  tx_post_dissection m len w = None <->
  matches w = true /\
  Exists (fun o => Z.of_nat (length (pkt_mem w)) <= o)
         (offsets (patch_table m)).
Proof.
  intros Hm. rewrite corpus_post, post_engine_eq by done.
  pose proof (corpus_bounds m Hm) as Hbd. rewrite forallb_forall in Hbd.
  assert (forall o, o ∈ offsets (patch_table m) -> 0 <= o) as Hpos.
  { intros o Ho. apply list_elem_of_In, Hbd, andb_true_iff in Ho as [Ho _].
    apply Z.leb_le in Ho. lia. }
  destruct (matches w).
  - destruct (apply (pkt_mem w) (patch_table m)) as [b|] eqn:Hb.
    + split; [done|]. intros [_ He].
      assert (apply (pkt_mem w) (patch_table m) = None); [|congruence].
      apply apply_None_iff. eapply Exists_impl; [exact He|]. simpl. lia.
    + split; [|done]. intros _. split; [done|].
      apply apply_None_iff in Hb. apply Exists_exists in Hb as (o & Ho & Hr).
      apply Exists_exists. exists o. split; [done|].
      specialize (Hpos o Ho). lia.
  - split; [done | by intros [? _]].
Qed.

(** X7: on a buffer of at least 688 bytes the pass of every module of the
    corpus has a defined result, whatever the state and the [pkt_length]
    passed, and the buffer keeps its extent. *)
Theorem post_defined_from_688 m (len : Z) w :
  m ∈ corpus ->
  688 <= Z.of_nat (length (pkt_mem w)) ->
  exists st w',
    tx_post_dissection m len w = Some (st, w') /\
    length (pkt_mem w') = length (pkt_mem w).
Proof.
  intros Hm Hlen.
  destruct (tx_post_dissection m len w) as [[st w']|] eqn:Hp.
  - exists st, w'. split; [done|].
    rewrite corpus_post, post_engine_eq in Hp by done.
    destruct (matches w).
    + destruct (apply (pkt_mem w) (patch_table m)) as [b|] eqn:Hb; [|done].
      injection Hp as <- <-. simpl. by eapply apply_length.
    + by injection Hp as <- <-.
  - apply post_undefined_iff in Hp as [_ He]; [|done]. exfalso.
    apply Exists_exists in He as (o & Ho & Hr).
    pose proof (corpus_bounds m Hm) as Hbd. rewrite forallb_forall in Hbd.
    apply list_elem_of_In, Hbd, andb_true_iff in Ho as [_ Ho].
    apply Z.leb_le in Ho. lia.
Qed.

Lemma apply_app b P Q :
  apply b (P ++ Q) = apply b P ≫= fun b' => apply b' Q.
Proof.
  revert b. induction P as [|[k v] P IH]; intros b; simpl; [done|].
  destruct (store_byte k v b); simpl; [apply IH | done].
Qed.

Lemma last_value_app P Q o :
  last_value (P ++ Q) o =
  match last_value Q o with
  | Some v => Some v
  | None => last_value P o
  end.
Proof.
  induction P as [|[k v] P IH]; simpl.
  - by destruct (last_value Q o).
  - rewrite IH. destruct (last_value Q o); [done|].
    by destruct (last_value P o).
Qed.

(** X8: when the passes of two modules both fire on a packet, the result is
    the two tables applied one after the other: a byte patched by the
    second module holds the second module's value, a byte patched only by
    the first holds the first module's value, and every other byte is
    unchanged. *)
Theorem post_then_post m1 m2 (len1 len2 : Z) w w1 w2 :
  m1 ∈ corpus -> m2 ∈ corpus ->
  tx_post_dissection m1 len1 w = Some (1, w1) ->
  tx_post_dissection m2 len2 w1 = Some (1, w2) ->
  apply (pkt_mem w) (patch_table m1 ++ patch_table m2) = Some (pkt_mem w2) /\
  (forall k v, (k, v) ∈ patch_table m2 ->
               pkt_mem w2 !! Z.to_nat k = Some v) /\
  (forall k v, (k, v) ∈ patch_table m1 -> k ∉ offsets (patch_table m2) ->
               pkt_mem w2 !! Z.to_nat k = Some v) /\
  (forall i : nat,
      Z.of_nat i ∉ offsets (patch_table m1) ->
      Z.of_nat i ∉ offsets (patch_table m2) ->
      pkt_mem w2 !! i = pkt_mem w !! i).
Proof.
  intros Hm1 Hm2 Hp1 Hp2.
  destruct (post_status_frame _ _ _ _ _ Hm1 Hp1) as ([[_ Hw]|[? _]] & _);
    [|lia].
  destruct (post_status_frame _ _ _ _ _ Hm2 Hp2) as ([[_ Hw1]|[? _]] & _);
    [|lia].
  rewrite corpus_post_matched in Hp1, Hp2 by done.
  destruct (apply (pkt_mem w) (patch_table m1)) as [b1|] eqn:Hb1; [|done].
  injection Hp1 as <-. simpl in Hp2.
  destruct (apply b1 (patch_table m2)) as [b2|] eqn:Hb2; [|done].
  injection Hp2 as <-. simpl.
  destruct (apply_result _ _ _ Hb1 (corpus_NoDup m1 Hm1)) as (_ & Hv1 & Hf1).
  destruct (apply_result _ _ _ Hb2 (corpus_NoDup m2 Hm2)) as (_ & Hv2 & Hf2).
  split; [by rewrite apply_app, Hb1|]. split; [done|]. split.
  - intros k v Hin Hk.
    assert (0 <= k) as Hk0.
    { apply apply_in_range in Hb1. rewrite Forall_forall in Hb1.
      apply (Hb1 k). apply list_elem_of_fmap. by exists (k, v). }
    rewrite <- (Hv1 k v Hin). apply Hf2. by rewrite Z2Nat.id.
  - intros i Hi1 Hi2. by rewrite Hf2, Hf1.
Qed.



End Runs.

(** ** Concrete passes *)

#[local] Existing Instance plain_harness.

Example before_post_rrc_setup :
  before_post mac_sch_f71_f247.hooks 800
    (Some ["nr-rrc.rrcSetup_element"%string]) (loaded (replicate 800 x00))
  = Some (rrc_setup_decoded (replicate 800 x00)).
Proof. reflexivity. Qed.

Example rrc_setup_matches mem : matches (rrc_setup_decoded mem) = true.
Proof. reflexivity. Qed.

Example other_message_does_not_match :
  (w ← before_post mac_sch_f71_f247.hooks 800
         (Some ["nr-rrc.rrcReject_element"%string])
         (loaded (replicate 800 x00));
   Some (matches w)) = Some false.
Proof. reflexivity. Qed.

(** Colliding offsets: the later entry wins, so here the order matters. *)
Example apply_collision :
  apply [x00; x00] [(1, x01); (1, x02)] = Some [x00; x02] /\
  apply [x00; x00] [(1, x02); (1, x01)] = Some [x00; x01].
Proof. split; reflexivity. Qed.

(** A store past the end of the object behind [pkt_buf] has no defined
    result. *)
Example post_short_object :
  tx_post_dissection mac_sch_f71_f247.hooks 70
    (rrc_setup_decoded (replicate 70 x00)) = None.
Proof. reflexivity. Qed.

(** With 800 bytes behind [pkt_buf] and [pkt_length] 100, the store at
    701 - 48 is performed and only the diagnostic line is printed. *)
Example post_store_past_pkt_length :
  exists w',
    tx_post_dissection mac_sch_865_mut2.hooks 100
      (rrc_setup_decoded (replicate 800 x00)) = Some (1, w') /\
    pkt_mem w' !! 653%nat = Some x07 /\
    wd_log w' = ["Malformed rrc setup sent!"%string].
Proof. eexists. split; [vm_compute; reflexivity|]. split; reflexivity. Qed.

Ltac in_corpus :=
  unfold corpus;
  repeat first [apply list_elem_of_here | apply list_elem_of_further].

Ltac offsets_in_range :=
  apply Forall_forall; intros o Ho; apply list_elem_of_In in Ho;
  vm_compute in Ho; intuition (subst o; vm_compute; intuition congruence).

(** The store of mac_sch_865_mut2 at 701 - 48 = 653 is performed on a
    packet of [pkt_length] 100, and no warning is printed. *)
Lemma out_of_range_store_performed :
  ~ skips_out_of_range mac_sch_865_mut2.hooks 100
      (rrc_setup_decoded (replicate 800 x00)).
Proof.
  intros (w' & Hpost & Hmem & _).
  vm_compute in Hpost. injection Hpost as <-.
  apply (f_equal (fun l => l !! 653%nat)) in Hmem.
  vm_compute in Hmem. discriminate Hmem.
Qed.

Lemma stores_ignore_pkt_length_witness :
  mac_sch_865_mut2.hooks ∈ @corpus plain_harness /\
  matches (rrc_setup_decoded (replicate 800 x00)) = true /\
  Forall (fun o => 0 <= o < Z.of_nat (length (replicate 800 x00)))
         (offsets mac_sch_865_mut2.patch_table) /\
  exists b,
    tx_post_dissection mac_sch_865_mut2.hooks 100
      (rrc_setup_decoded (replicate 800 x00))
    = Some (1, mutated b (rrc_setup_decoded (replicate 800 x00))) /\
    wd_log (mutated b (rrc_setup_decoded (replicate 800 x00)))
    = [] ++ ["Malformed rrc setup sent!"%string] /\
    length b = length (replicate 800 x00) /\
    (forall k v, (k, v) ∈ mac_sch_865_mut2.patch_table ->
                 b !! Z.to_nat k = Some v) /\
    (forall i : nat,
        Z.of_nat i ∉ offsets mac_sch_865_mut2.patch_table ->
        b !! i = replicate 800 x00 !! i).
Proof.
  assert (Forall (fun o => 0 <= o < Z.of_nat (length (replicate 800 x00)))
                 (offsets mac_sch_865_mut2.patch_table)) as Hr
    by offsets_in_range.
  split; [in_corpus|]. split; [reflexivity|]. split; [exact Hr|].
  apply (@stores_ignore_pkt_length plain_harness mac_sch_865_mut2.hooks 100
           (rrc_setup_decoded (replicate 800 x00)));
    [in_corpus | reflexivity | exact Hr].
Defined.

(** On a packet of [pkt_length] 680 behind which lie 800 bytes of 0x47,
    mac_sch_904_mut8 changes byte 680 (728 - 48, not below [pkt_length]) and
    leaves byte 671 (719 - 48, patched with 0x47) as it was. *)
Lemma post_differs_out_of_range :
  ~ differs_exactly_in_range mac_sch_904_mut8.hooks 680
      (rrc_setup_decoded (replicate 800 x47)).
Proof.
  intros (w' & Hpost & _ & Hdiff).
  vm_compute in Hpost. injection Hpost as <-.
  destruct (Hdiff 680%nat) as [Hout _].
  assert (Z.of_nat 680 < 680) as Habs; [|lia].
  apply Hout. vm_compute. discriminate.
Qed.

Example post_in_range_byte_kept :
  exists w',
    tx_post_dissection mac_sch_904_mut8.hooks 680
      (rrc_setup_decoded (replicate 800 x47)) = Some (1, w') /\
    pkt_mem w' !! 671%nat = replicate 800 x47 !! 671%nat /\
    pkt_mem w' !! 680%nat = Some xa0.
Proof. eexists. split; [vm_compute; reflexivity|]. split; reflexivity. Qed.

Lemma post_matched_frame_witness :
  mac_sch_904_mut8.hooks ∈ @corpus plain_harness /\
  matches (rrc_setup_decoded (replicate 800 x47)) = true /\
  800 <= Z.of_nat (length (replicate 800 x47)) /\
  Forall (fun o => o < 800) (offsets mac_sch_904_mut8.patch_table) /\
  exists w',
    tx_post_dissection mac_sch_904_mut8.hooks 800
      (rrc_setup_decoded (replicate 800 x47)) = Some (1, w') /\
    length (pkt_mem w') = length (replicate 800 x47) /\
    (forall k v, (k, v) ∈ mac_sch_904_mut8.patch_table ->
                 pkt_mem w' !! Z.to_nat k = Some v) /\
    (forall i : nat,
        pkt_mem w' !! i <> replicate 800 x47 !! i ->
        Z.of_nat i ∈ offsets mac_sch_904_mut8.patch_table /\
        Z.of_nat i < 800).
Proof.
  assert (Forall (fun o => o < 800) (offsets mac_sch_904_mut8.patch_table))
    as Hr by offsets_in_range.
  assert (800 <= Z.of_nat (length (replicate 800 x47))) as Hlen
    by (rewrite length_replicate; lia).
  split; [in_corpus|]. split; [reflexivity|]. split; [exact Hlen|].
  split; [exact Hr|].
  apply (@post_matched_frame plain_harness mac_sch_904_mut8.hooks 800
           (rrc_setup_decoded (replicate 800 x47)));
    [in_corpus | reflexivity | exact Hlen | exact Hr].
Defined.

Lemma post_unmatched_unchanged_witness :
  mac_sch_f71_f247.hooks ∈ @corpus plain_harness /\
  (matches (decode None (rrc_setup_decoded (replicate 800 x00))) = false \/
   wd_dissection (wd (ctx (decode None
                             (rrc_setup_decoded (replicate 800 x00)))))
   = None) /\
  matches (decode None (rrc_setup_decoded (replicate 800 x00))) = false /\
  tx_post_dissection mac_sch_f71_f247.hooks 800
    (decode None (rrc_setup_decoded (replicate 800 x00)))
  = Some (0, decode None (rrc_setup_decoded (replicate 800 x00))) /\
  outcome (tx_post_dissection mac_sch_f71_f247.hooks 800
             (decode None (rrc_setup_decoded (replicate 800 x00))))
  = Some (0, pkt_mem (decode None (rrc_setup_decoded (replicate 800 x00)))).
Proof.
  split; [in_corpus|]. split; [right; reflexivity|].
  apply (@post_unmatched_unchanged plain_harness mac_sch_f71_f247.hooks 800
           (decode None (rrc_setup_decoded (replicate 800 x00))));
    [in_corpus | right; reflexivity].
Defined.

Lemma post_last_write_wins_witness :
  (matches (rrc_setup_decoded (replicate 800 x00)) = true /\
   800 <= Z.of_nat (length (pkt_mem (rrc_setup_decoded (replicate 800 x00)))) /\
   Forall (fun o => 0 <= o < 800) (offsets mac_sch_678_mut3.patch_table) /\
   exists b',
     tx_post_dissection mac_sch_678_mut3.hooks 800
       (rrc_setup_decoded (replicate 800 x00))
     = Some (1, mutated b' (rrc_setup_decoded (replicate 800 x00))) /\
     length b' = length (pkt_mem (rrc_setup_decoded (replicate 800 x00))) /\
     (forall o, o ∈ offsets mac_sch_678_mut3.patch_table ->
        exists v, last_value mac_sch_678_mut3.patch_table o = Some v /\
                  b' !! Z.to_nat o = Some v) /\
     (forall i : nat,
         Z.of_nat i ∉ offsets mac_sch_678_mut3.patch_table ->
         b' !! i = pkt_mem (rrc_setup_decoded (replicate 800 x00)) !! i) /\
     (forall P', P' ≡ₚ mac_sch_678_mut3.patch_table ->
                 NoDup (offsets mac_sch_678_mut3.patch_table) ->
                 post_engine P' 800 (rrc_setup_decoded (replicate 800 x00))
                 = Some (1, mutated b'
                              (rrc_setup_decoded (replicate 800 x00))))) /\
  (matches (rrc_setup_decoded (replicate 800 x00)) = true /\
   800 <= Z.of_nat (length (pkt_mem (rrc_setup_decoded (replicate 800 x00)))) /\
   Forall (fun o => 0 <= o < 800)
          (offsets [(74 - 48, x9a); (75 - 48, x00); (74 - 48, x8a)]) /\
   exists b',
     post_engine [(74 - 48, x9a); (75 - 48, x00); (74 - 48, x8a)] 800
       (rrc_setup_decoded (replicate 800 x00))
     = Some (1, mutated b' (rrc_setup_decoded (replicate 800 x00))) /\
     length b' = length (pkt_mem (rrc_setup_decoded (replicate 800 x00))) /\
     b' !! Z.to_nat 26 = Some x8a /\
     b' !! Z.to_nat 27 = Some x00).
Proof.
  assert (800 <= Z.of_nat (length (pkt_mem (rrc_setup_decoded
                                              (replicate 800 x00)))))
    as Hlen by (simpl; rewrite ?length_replicate; lia).
  assert (Forall (fun o => 0 <= o < 800)
                 (offsets mac_sch_678_mut3.patch_table)) as Hr
    by offsets_in_range.
  assert (Forall (fun o => 0 <= o < 800)
                 (offsets [(74 - 48, x9a); (75 - 48, x00); (74 - 48, x8a)]))
    as Hr2 by offsets_in_range.
  split.
  - split; [reflexivity|]. split; [exact Hlen|]. split; [exact Hr|].
    destruct (@post_last_write_wins plain_harness
                mac_sch_678_mut3.patch_table 800
                (rrc_setup_decoded (replicate 800 x00))
                eq_refl Hlen Hr) as (b' & _ & Hm & Hl & Hv & Hf & Hp).
    exists b'. split; [|split; [exact Hl|split; [exact Hv|split;
                                 [exact Hf|exact Hp]]]].
    apply (Hm mac_sch_678_mut3.hooks); [in_corpus | reflexivity].
  - split; [reflexivity|]. split; [exact Hlen|]. split; [exact Hr2|].
    destruct (@post_last_write_wins plain_harness
                [(74 - 48, x9a); (75 - 48, x00); (74 - 48, x8a)] 800
                (rrc_setup_decoded (replicate 800 x00))
                eq_refl Hlen Hr2) as (b' & He & _ & Hl & Hv & _ & _).
    exists b'. split; [exact He|]. split; [exact Hl|]. split.
    + destruct (Hv 26) as (v & Hlast & Hb);
        [vm_compute; apply list_elem_of_here|].
      vm_compute in Hlast. injection Hlast as <-. exact Hb.
    + destruct (Hv 27) as (v & Hlast & Hb);
        [vm_compute; apply list_elem_of_further, list_elem_of_here|].
      vm_compute in Hlast. injection Hlast as <-. exact Hb.
Defined.

Lemma scenario_A_witness :
  length (pkt_mem (rrc_setup_decoded (replicate 800 x00))) = 800%nat /\
  matches (rrc_setup_decoded (replicate 800 x00)) = true /\
  mac_sch_f71_f247.patch_table = [(75, x09); (218, x6d); (219, x84)] /\
  exists w',
    mac_sch_f71_f247.tx_post_dissection 800
      (rrc_setup_decoded (replicate 800 x00)) = Some (1, w') /\
    length (pkt_mem w') = 800%nat /\
    pkt_mem w' !! 75%nat = Some x09 /\
    pkt_mem w' !! 218%nat = Some x6d /\
    pkt_mem w' !! 219%nat = Some x84 /\
    (forall i : nat,
        i <> 75%nat -> i <> 218%nat -> i <> 219%nat ->
        pkt_mem w' !! i = pkt_mem (rrc_setup_decoded (replicate 800 x00)) !! i).
Proof.
  split; [reflexivity|]. split; [reflexivity|].
  apply (@scenario_A plain_harness (rrc_setup_decoded (replicate 800 x00)));
    reflexivity.
Defined.

Lemma post_deterministic_witness :
  mac_sch_865_mut4.hooks ∈ @corpus plain_harness /\
  pkt_mem (rrc_setup_decoded (replicate 800 x00))
  = pkt_mem (mutated (replicate 800 x00) (rrc_setup_decoded [])) /\
  matches (rrc_setup_decoded (replicate 800 x00))
  = matches (mutated (replicate 800 x00) (rrc_setup_decoded [])) /\
  outcome (tx_post_dissection mac_sch_865_mut4.hooks 800
             (rrc_setup_decoded (replicate 800 x00)))
  = outcome (tx_post_dissection mac_sch_865_mut4.hooks 0
               (mutated (replicate 800 x00) (rrc_setup_decoded []))).
Proof.
  split; [in_corpus|]. split; [reflexivity|]. split; [reflexivity|].
  apply (@post_deterministic plain_harness mac_sch_865_mut4.hooks 800 0
           (rrc_setup_decoded (replicate 800 x00))
           (mutated (replicate 800 x00) (rrc_setup_decoded [])));
    [in_corpus | reflexivity | reflexivity].
Defined.

Lemma setup_effect_witness :
  mac_sch_csi_IM_ResourcesForInterference_offset.hooks
    ∈ @corpus plain_harness /\
  exists w',
    setup mac_sch_csi_IM_ResourcesForInterference_offset.hooks (loaded [])
    = Some (0, w') /\
    global_timeout (fuzzing (config (ctx w'))) = false /\
    fuzzing_other (fuzzing (config (ctx w')))
      = fuzzing_other (fuzzing (config (ctx (loaded [])))) /\
    config_other (config (ctx w')) = config_other (config (ctx (loaded []))) /\
    wd (ctx w') = wd (ctx (loaded [])) /\
    pkt_mem w' = pkt_mem (loaded []) /\
    wd_log w' = wd_log (loaded []) /\
    (f1 w', wd_filters w') =
      if @resolves plain_harness "nr-rrc.rrcSetup_element"
      then (Some "nr-rrc.rrcSetup_element"%string,
            registry_add "nr-rrc.rrcSetup_element" (wd_filters (loaded [])))
      else (None, wd_filters (loaded [])).
Proof.
  split; [in_corpus|].
  apply (@setup_effect plain_harness
           mac_sch_csi_IM_ResourcesForInterference_offset.hooks (loaded []));
    in_corpus.
Defined.

Lemma tables_sorted_distinct_witness :
  mac_sch_767_mut11.hooks ∈ @corpus plain_harness /\
  StronglySorted Z.lt (offsets (patch_table mac_sch_767_mut11.hooks)) /\
  NoDup (offsets (patch_table mac_sch_767_mut11.hooks)) /\
  Forall (fun o => 26 <= o <= 687)
         (offsets (patch_table mac_sch_767_mut11.hooks)) /\
  (forall k v, (k, v) ∈ patch_table mac_sch_767_mut11.hooks ->
               last_value (patch_table mac_sch_767_mut11.hooks) k = Some v) /\
  (forall P' b, P' ≡ₚ patch_table mac_sch_767_mut11.hooks ->
                apply b P' = apply b (patch_table mac_sch_767_mut11.hooks)).
Proof.
  split; [in_corpus|].
  apply (@tables_sorted_distinct plain_harness mac_sch_767_mut11.hooks);
    in_corpus.
Defined.

Lemma module_name_pure_witness :
  mac_sch_f71_f247.hooks ∈ @corpus plain_harness /\
  module_name mac_sch_f71_f247.hooks (loaded [x00])
  = Some ("Mediatek"%string, loaded [x00]).
Proof.
  split; [in_corpus|].
  apply (@module_name_pure plain_harness mac_sch_f71_f247.hooks
           (loaded [x00])); in_corpus.
Defined.

(** ** Concrete runs *)

Lemma run_buffer_two_states_witness :
  mac_sch_787_mut3.hooks ∈ @corpus plain_harness /\
  exists sts w',
    run mac_sch_787_mut3.hooks
      [ev_setup; ev_tx_pre_dissection 800;
       ev_decode (Some ["nr-rrc.rrcSetup_element"%string]);
       ev_tx_post_dissection 800; ev_tx_post_dissection 800]
      (loaded (replicate 800 x00)) = Some (sts, w') /\
    ((1 ∉ sts /\ pkt_mem w' = pkt_mem (loaded (replicate 800 x00))) \/
     (1 ∈ sts /\
      apply (pkt_mem (loaded (replicate 800 x00)))
            (patch_table mac_sch_787_mut3.hooks) = Some (pkt_mem w'))).
Proof.
  split; [in_corpus|]. eexists _, _.
  split; [vm_compute; reflexivity|].
  eapply (@run_buffer_two_states plain_harness mac_sch_787_mut3.hooks
           [ev_setup; ev_tx_pre_dissection 800;
            ev_decode (Some ["nr-rrc.rrcSetup_element"%string]);
            ev_tx_post_dissection 800; ev_tx_post_dissection 800]
           (loaded (replicate 800 x00)));
    [in_corpus | vm_compute; reflexivity].
Defined.

Lemma run_invariants_witness :
  mac_sch_787_mut3.hooks ∈ @corpus plain_harness /\
  exists sts w',
    run mac_sch_787_mut3.hooks
      [ev_tx_pre_dissection 800; ev_setup;
       ev_decode (Some ["nr-rrc.rrcSetup_element"%string]);
       ev_tx_post_dissection 800]
      (loaded (replicate 800 x00)) = Some (sts, w') /\
    length (pkt_mem w') = length (pkt_mem (loaded (replicate 800 x00))) /\
    fuzzing_other (fuzzing (config (ctx w')))
    = fuzzing_other (fuzzing (config (ctx (loaded (replicate 800 x00))))) /\
    config_other (config (ctx w'))
    = config_other (config (ctx (loaded (replicate 800 x00)))) /\
    (timeout_enforced (loaded (replicate 800 x00)) = false ->
     timeout_enforced w' = false) /\
    (ev_setup ∈ [ev_tx_pre_dissection 800; ev_setup;
                 ev_decode (Some ["nr-rrc.rrcSetup_element"%string]);
                 ev_tx_post_dissection 800] ->
     timeout_enforced w' = false) /\
    (ev_setup ∉ [ev_tx_pre_dissection 800; ev_setup;
                 ev_decode (Some ["nr-rrc.rrcSetup_element"%string]);
                 ev_tx_post_dissection 800] ->
     timeout_enforced w' = timeout_enforced (loaded (replicate 800 x00)) /\
     f1 w' = f1 (loaded (replicate 800 x00))).
Proof.
  split; [in_corpus|]. eexists _, _.
  split; [vm_compute; reflexivity|].
  eapply (@run_invariants plain_harness mac_sch_787_mut3.hooks
           [ev_tx_pre_dissection 800; ev_setup;
            ev_decode (Some ["nr-rrc.rrcSetup_element"%string]);
            ev_tx_post_dissection 800]
           (loaded (replicate 800 x00)));
    [in_corpus | vm_compute; reflexivity].
Defined.

Lemma run_log_witness :
  mac_sch_787_mut3.hooks ∈ @corpus plain_harness /\
  exists sts w',
    run mac_sch_787_mut3.hooks
      [ev_setup; ev_tx_post_dissection 800; ev_tx_pre_dissection 800;
       ev_decode (Some ["nr-rrc.rrcSetup_element"%string]);
       ev_tx_post_dissection 800; ev_module_name;
       ev_tx_post_dissection 800]
      (loaded (replicate 800 x00)) = Some (sts, w') /\
    Forall (fun st => st = 0 \/ st = 1) sts /\
    wd_log w' =
      wd_log (loaded (replicate 800 x00))
      ++ replicate (length (filter (fun st => st = 1) sts))
                   "Malformed rrc setup sent!"%string.
Proof.
  split; [in_corpus|]. eexists _, _.
  split; [vm_compute; reflexivity|].
  eapply (@run_log plain_harness mac_sch_787_mut3.hooks
           [ev_setup; ev_tx_post_dissection 800; ev_tx_pre_dissection 800;
            ev_decode (Some ["nr-rrc.rrcSetup_element"%string]);
            ev_tx_post_dissection 800; ev_module_name;
            ev_tx_post_dissection 800]
           (loaded (replicate 800 x00)));
    [in_corpus | vm_compute; reflexivity].
Defined.

Example run_statuses :
  exists w',
    run mac_sch_787_mut3.hooks
      [ev_setup; ev_tx_post_dissection 800; ev_tx_pre_dissection 800;
       ev_decode (Some ["nr-rrc.rrcSetup_element"%string]);
       ev_tx_post_dissection 800; ev_module_name;
       ev_tx_post_dissection 800]
      (loaded (replicate 800 x00)) = Some ([0; 1; 1], w') /\
    wd_log w' = ["Malformed rrc setup sent!"%string;
                 "Malformed rrc setup sent!"%string].
Proof. eexists. split; [vm_compute; reflexivity | reflexivity]. Qed.

Lemma post_status_frame_witness :
  mac_sch_787_mut3.hooks ∈ @corpus plain_harness /\
  exists st w',
    tx_post_dissection mac_sch_787_mut3.hooks 800
      (rrc_setup_decoded (replicate 800 x00)) = Some (st, w') /\
    (st = 1 /\ matches (rrc_setup_decoded (replicate 800 x00)) = true \/
     st = 0 /\ matches (rrc_setup_decoded (replicate 800 x00)) = false) /\
    f1 w' = f1 (rrc_setup_decoded (replicate 800 x00)) /\
    ctx w' = ctx (rrc_setup_decoded (replicate 800 x00)) /\
    wd_filters w' = wd_filters (rrc_setup_decoded (replicate 800 x00)) /\
    matches w' = matches (rrc_setup_decoded (replicate 800 x00)).
Proof.
  split; [in_corpus|]. eexists _, _.
  split; [vm_compute; reflexivity|].
  eapply (@post_status_frame plain_harness mac_sch_787_mut3.hooks 800
           (rrc_setup_decoded (replicate 800 x00)));
    [in_corpus | vm_compute; reflexivity].
Defined.

Lemma post_mutated_without_change_witness :
  mac_sch_904_mut8.hooks ∈ @corpus plain_harness /\
  matches (rrc_setup_decoded (replicate 800 x47)) = true /\
  (outcome (tx_post_dissection mac_sch_904_mut8.hooks 800
              (rrc_setup_decoded (replicate 800 x47)))
   = Some (1, pkt_mem (rrc_setup_decoded (replicate 800 x47))) <->
   (forall k v, (k, v) ∈ patch_table mac_sch_904_mut8.hooks ->
                pkt_mem (rrc_setup_decoded (replicate 800 x47))
                  !! Z.to_nat k = Some v)).
Proof.
  split; [in_corpus|]. split; [reflexivity|].
  apply (@post_mutated_without_change plain_harness mac_sch_904_mut8.hooks
           800 (rrc_setup_decoded (replicate 800 x47)));
    [in_corpus | reflexivity].
Defined.

Lemma post_undefined_iff_witness :
  mac_sch_f71_f247.hooks ∈ @corpus plain_harness /\
  (tx_post_dissection mac_sch_f71_f247.hooks 219
     (rrc_setup_decoded (replicate 219 x00)) = None <->
   matches (rrc_setup_decoded (replicate 219 x00)) = true /\
   Exists (fun o =>
             Z.of_nat (length (pkt_mem (rrc_setup_decoded
                                          (replicate 219 x00)))) <= o)
          (offsets (patch_table mac_sch_f71_f247.hooks))).
Proof.
  split; [in_corpus|].
  apply (@post_undefined_iff plain_harness mac_sch_f71_f247.hooks 219
           (rrc_setup_decoded (replicate 219 x00))); in_corpus.
Defined.

Example post_one_byte_short :
  tx_post_dissection mac_sch_f71_f247.hooks 219
    (rrc_setup_decoded (replicate 219 x00)) = None /\
  outcome (tx_post_dissection mac_sch_f71_f247.hooks 220
             (rrc_setup_decoded (replicate 220 x00)))
  = Some (1, <[219%nat := x84]>
               (<[218%nat := x6d]> (<[75%nat := x09]> (replicate 220 x00)))).
Proof. split; reflexivity. Qed.

Lemma post_defined_from_688_witness :
  mac_sch_678_mut3.hooks ∈ @corpus plain_harness /\
  688 <= Z.of_nat (length (pkt_mem (rrc_setup_decoded (replicate 688 x00)))) /\
  exists st w',
    tx_post_dissection mac_sch_678_mut3.hooks 0
      (rrc_setup_decoded (replicate 688 x00)) = Some (st, w') /\
    length (pkt_mem w')
    = length (pkt_mem (rrc_setup_decoded (replicate 688 x00))).
Proof.
  assert (688 <= Z.of_nat (length (pkt_mem (rrc_setup_decoded
                                              (replicate 688 x00)))))
    as Hlen by (simpl; rewrite ?length_replicate; lia).
  split; [in_corpus|]. split; [exact Hlen|].
  apply (@post_defined_from_688 plain_harness mac_sch_678_mut3.hooks 0
           (rrc_setup_decoded (replicate 688 x00)));
    [in_corpus | exact Hlen].
Defined.

Lemma post_then_post_witness :
  mac_sch_904_mut8.hooks ∈ @corpus plain_harness /\
  mac_sch_889_mut9.hooks ∈ @corpus plain_harness /\
  exists w1 w2,
    tx_post_dissection mac_sch_904_mut8.hooks 800
      (rrc_setup_decoded (replicate 800 x00)) = Some (1, w1) /\
    tx_post_dissection mac_sch_889_mut9.hooks 800 w1 = Some (1, w2) /\
    apply (pkt_mem (rrc_setup_decoded (replicate 800 x00)))
          (patch_table mac_sch_904_mut8.hooks
           ++ patch_table mac_sch_889_mut9.hooks) = Some (pkt_mem w2) /\
    (forall k v, (k, v) ∈ patch_table mac_sch_889_mut9.hooks ->
                 pkt_mem w2 !! Z.to_nat k = Some v) /\
    (forall k v, (k, v) ∈ patch_table mac_sch_904_mut8.hooks ->
                 k ∉ offsets (patch_table mac_sch_889_mut9.hooks) ->
                 pkt_mem w2 !! Z.to_nat k = Some v) /\
    (forall i : nat,
        Z.of_nat i ∉ offsets (patch_table mac_sch_904_mut8.hooks) ->
        Z.of_nat i ∉ offsets (patch_table mac_sch_889_mut9.hooks) ->
        pkt_mem w2 !! i
        = pkt_mem (rrc_setup_decoded (replicate 800 x00)) !! i).
Proof.
  split; [in_corpus|]. split; [in_corpus|]. eexists _, _.
  split; [vm_compute; reflexivity|].
  split; [vm_compute; reflexivity|].
  eapply (@post_then_post plain_harness mac_sch_904_mut8.hooks
            mac_sch_889_mut9.hooks 800 800
            (rrc_setup_decoded (replicate 800 x00)));
    [in_corpus | in_corpus | vm_compute; reflexivity | vm_compute; reflexivity].
Defined.

(** Both modules patch 728 - 48 = 680, where the module that runs last
    decides; only the first patches 727 - 48 = 679 and only the second
    711 - 48 = 663. *)
Example post_then_post_overlap :
  exists w1 w2,
    tx_post_dissection mac_sch_904_mut8.hooks 800
      (rrc_setup_decoded (replicate 800 x00)) = Some (1, w1) /\
    tx_post_dissection mac_sch_889_mut9.hooks 800 w1 = Some (1, w2) /\
    pkt_mem w1 !! 680%nat = Some xa0 /\
    pkt_mem w2 !! 680%nat = Some x68 /\
    pkt_mem w2 !! 679%nat = Some x01 /\
    pkt_mem w2 !! 663%nat = Some x12.
Proof.
  eexists _, _. split; [vm_compute; reflexivity|].
  split; [vm_compute; reflexivity|].
  split; [reflexivity|]. split; [reflexivity|]. split; reflexivity.
Qed.


